(** * Scheme selection of the compressed-tensors quantization config

    A shallow embedding of
    [python/sglang/srt/layers/quantization/compressed_tensors/compressed_tensors.py]:
    the eligibility predicates of [CompressedTensorsConfig], the classifier
    [_get_scheme_from_parts] / [get_scheme], the device capability gate
    [_check_scheme_supported], [get_quant_method] and [get_cache_scale].

    Python values that may be [None] are [option]s, exceptions are the
    [Raise] results of an error monad, integers are [Z], strings are
    [string], dictionaries are association lists in insertion order. *)

From Stdlib Require Import ZArith List String Ascii Bool Lia.
Import ListNotations.

Local Open Scope string_scope.
Local Open Scope list_scope.
Local Open Scope Z_scope.

(* ------------------------------------------------------------------ *)
(** ** Python runtime: exceptions, string methods, dictionaries       *)
(* ------------------------------------------------------------------ *)

Module Py.

(** The exceptions the module can raise.  [RuntimeError] carries the two
    values interpolated in the message of [_check_scheme_supported]. *)
Inductive exn : Type :=
| AssertionError
| AttributeError
| ImportError (msg : string)
| KeyError (key : string)
| NameError (name : string)
| NotImplementedError (msg : string)
| RuntimeError (min_capability capability : Z)
| ValueError (msg : string).

Inductive result (A : Type) : Type :=
| Return (a : A)
| Raise (e : exn).

Arguments Return {A} a.
Arguments Raise {A} e.

Definition bind {A B : Type} (m : result A) (k : A -> result B) : result B :=
  match m with
  | Return a => k a
  | Raise e => Raise e
  end.

(** [o.attr] on a value that may be [None]. *)
Definition deref {A : Type} (o : option A) : result A :=
  match o with
  | Some a => Return a
  | None => Raise AttributeError
  end.

(** [o is None] *)
Definition is_None {A : Type} (o : option A) : bool :=
  match o with
  | None => true
  | Some _ => false
  end.

(** [assert b], with assertions enabled *)
Definition assert (b : bool) : result unit :=
  if b then Return tt else Raise AssertionError.

(** [str.startswith] *)
Fixpoint startswith (s pre : string) : bool :=
  match pre with
  | EmptyString => true
  | String a pre' =>
      match s with
      | EmptyString => false
      | String b s' => Ascii.eqb a b && startswith s' pre'
      end
  end.

(** [str.endswith] *)
Fixpoint endswith (s suffix : string) : bool :=
  if String.eqb s suffix then true
  else match s with
       | EmptyString => false
       | String _ s' => endswith s' suffix
       end.

(** [sub in s] on strings *)
Fixpoint contains (sub s : string) : bool :=
  if startswith s sub then true
  else match s with
       | EmptyString => false
       | String _ s' => contains sub s'
       end.

(** [str.replace] for a non-empty [old]: scan from the left, replace each
    occurrence and resume after it.  [skip] counts the characters of the
    occurrence still to be dropped. *)
Fixpoint replace_from (old new : string) (skip : nat) (s : string) : string :=
  match s with
  | EmptyString => EmptyString
  | String c s' =>
      match skip with
      | S k => replace_from old new k s'
      | O =>
          if startswith s old
          then String.append new (replace_from old new (Nat.pred (String.length old)) s')
          else String c (replace_from old new O s')
      end
  end.

(** With an empty [old] Python inserts [new] before every character and
    at the end. *)
Fixpoint intersperse (new s : string) : string :=
  match s with
  | EmptyString => new
  | String c s' => String.append new (String c (intersperse new s'))
  end.

Definition replace (s old new : string) : string :=
  match old with
  | EmptyString => intersperse new s
  | String _ _ => replace_from old new O s
  end.

(** [x in l] for lists of strings and of integers. *)
Definition mem_str (x : string) (l : list string) : bool :=
  existsb (String.eqb x) l.

Definition mem_int (x : Z) (l : list Z) : bool :=
  existsb (Z.eqb x) l.

(** [d[key]] on a dictionary kept as an association list. *)
Fixpoint getitem {V : Type} (d : list (string * V)) (key : string) : result V :=
  match d with
  | [] => Raise (KeyError key)
  | (k, v) :: d' => if String.eqb k key then Return v else getitem d' key
  end.

(** [d.keys()] *)
Definition keys {V : Type} (d : list (string * V)) : list string :=
  map fst d.

End Py.

Import Py.

Declare Scope py_scope.
Delimit Scope py_scope with py.
Notation "x <- m ;; k" := (bind m (fun x => k))
  (at level 61, m at next level, right associativity) : py_scope.
Notation "m ;;; k" := (bind m (fun _ => k))
  (at level 61, right associativity) : py_scope.
Local Open Scope py_scope.

(* ------------------------------------------------------------------ *)
(** ** Data model                                                      *)
(* ------------------------------------------------------------------ *)

(** Modelled from the spec: the enumerations and the pydantic models of the
    [compressed_tensors] package are imported, not defined, by the module.
    The spec's data model gives [QuantizationArgs] the fields below, with
    [strategy] one of TENSOR, CHANNEL, GROUP, TOKEN and [type] one of
    FLOAT, INT. *)
Inductive QuantizationStrategy : Type := TENSOR | CHANNEL | GROUP | TOKEN.

Inductive QuantizationType : Type := INT | FLOAT.

Definition strategy_eqb (a b : QuantizationStrategy) : bool :=
  match a, b with
  | TENSOR, TENSOR | CHANNEL, CHANNEL | GROUP, GROUP | TOKEN, TOKEN => true
  | _, _ => false
  end.

Definition type_eqb (a b : QuantizationType) : bool :=
  match a, b with
  | INT, INT | FLOAT, FLOAT => true
  | _, _ => false
  end.

Definition strategy_in (s : QuantizationStrategy)
                       (l : list QuantizationStrategy) : bool :=
  existsb (strategy_eqb s) l.

Record QuantizationArgs : Type := {
  num_bits : Z;
  type : QuantizationType;
  strategy : QuantizationStrategy;
  symmetric : bool;
  dynamic : bool;
  group_size : option Z;
  actorder : option bool
}.

(** Modelled from the spec: the members of [CompressionFormat] and
    [SparsityStructure] the module names.  [format] and [quant_format] are
    plain strings in the code, compared with the members' [.value]. *)
Module CompressionFormat.
Definition dense : string := "dense".
Definition sparse_24_bitmask : string := "sparse-24-bitmask".
Definition marlin_24 : string := "marlin-24".
Definition pack_quantized : string := "pack-quantized".
Definition int_quantized : string := "int-quantized".
Definition float_quantized : string := "float-quantized".
Definition naive_quantized : string := "naive-quantized".
End CompressionFormat.

Module SparsityStructure.
Definition TWO_FOUR : string := "2:4".
End SparsityStructure.

Record SparsityCompressionConfig : Type := {
  format : string;
  sparsity_structure : option string;
  sparsity_targets : option (list string);
  sparsity_ignore : option (list string)
}.

(** The raw [quantization_config] dictionary of config.json, carried but
    never inspected by the functions below. *)
#[local] Unset Elimination Schemes.
Inductive Json : Type :=
| JNull
| JBool (b : bool)
| JInt (z : Z)
| JStr (s : string)
| JList (l : list Json)
| JDict (d : list (string * Json)).
#[local] Set Elimination Schemes.

Definition RawConfig : Type := list (string * Json).

(** The scheme classes the module instantiates, each with the keyword
    arguments of its call site.  [is_static_input_scheme] of the two FP8
    schemes is the value of [input_quant and not input_quant.dynamic],
    which is [None] when [input_quant] is. *)
Inductive Scheme : Type :=
| CompressedTensors24
    (quantized : bool)
    (weight_quant input_quant : option QuantizationArgs)
    (model_compression_config : option RawConfig)
| CompressedTensorsW4A16Sparse24
    (strategy : QuantizationStrategy) (num_bits : Z) (group_size : option Z)
| CompressedTensorsWNA16
    (num_bits : Z) (strategy : QuantizationStrategy)
    (group_size : option Z) (actorder : option bool)
| CompressedTensorsW8A8Fp8
    (strategy : QuantizationStrategy) (is_static_input_scheme : option bool)
| CompressedTensorsW8A16Fp8
    (strategy : QuantizationStrategy) (is_static_input_scheme : option bool)
| CompressedTensorsW8A8Int8
    (strategy : QuantizationStrategy) (is_static_input_scheme : bool)
    (input_symmetric : bool).

Inductive SchemeClass : Type :=
| cls_CompressedTensors24
| cls_CompressedTensorsW4A16Sparse24
| cls_CompressedTensorsWNA16
| cls_CompressedTensorsW8A8Fp8
| cls_CompressedTensorsW8A16Fp8
| cls_CompressedTensorsW8A8Int8.

(** [scheme.__class__] *)
Definition class_of (s : Scheme) : SchemeClass :=
  match s with
  | CompressedTensors24 _ _ _ _ => cls_CompressedTensors24
  | CompressedTensorsW4A16Sparse24 _ _ _ => cls_CompressedTensorsW4A16Sparse24
  | CompressedTensorsWNA16 _ _ _ _ => cls_CompressedTensorsWNA16
  | CompressedTensorsW8A8Fp8 _ _ => cls_CompressedTensorsW8A8Fp8
  | CompressedTensorsW8A16Fp8 _ _ => cls_CompressedTensorsW8A16Fp8
  | CompressedTensorsW8A8Int8 _ _ _ => cls_CompressedTensorsW8A8Int8
  end.

(** [scheme.__class__.__name__] *)
Definition class_name (c : SchemeClass) : string :=
  match c with
  | cls_CompressedTensors24 => "CompressedTensors24"
  | cls_CompressedTensorsW4A16Sparse24 => "CompressedTensorsW4A16Sparse24"
  | cls_CompressedTensorsWNA16 => "CompressedTensorsWNA16"
  | cls_CompressedTensorsW8A8Fp8 => "CompressedTensorsW8A8Fp8"
  | cls_CompressedTensorsW8A16Fp8 => "CompressedTensorsW8A16Fp8"
  | cls_CompressedTensorsW8A8Int8 => "CompressedTensorsW8A8Int8"
  end.

(** [class DeviceCapability(NamedTuple)] *)
Record DeviceCapability : Type := {
  major : Z;
  minor : Z
}.

(** [DeviceCapability.to_int] *)
Definition to_int (self : DeviceCapability) : result Z :=
  assert ((0 <=? minor self) && (minor self <? 10)) ;;;
  Return (major self * 10 + minor self).

(** A layer ([torch.nn.Module]): what [isinstance] answers for the two
    classes [get_quant_method] tests, and the [scheme] attribute it sets. *)
Record Layer : Type := {
  module_class : string;
  is_LinearBase : bool;
  is_FusedMoE : bool;
  scheme : option Scheme
}.

Definition set_scheme (layer : Layer) (s : Scheme) : Layer :=
  {| module_class := module_class layer;
     is_LinearBase := is_LinearBase layer;
     is_FusedMoE := is_FusedMoE layer;
     scheme := Some s |}.

(** One value of [target_scheme_map]: the dictionary with the keys
    ["weights"] and ["input_activations"]; [.get] gives [None] for a key
    that is missing or bound to [None]. *)
Record SchemeDict : Type := {
  weights : option QuantizationArgs;
  input_activations : option QuantizationArgs
}.

(** The attributes [CompressedTensorsConfig.__init__] stores. *)
Record CompressedTensorsConfig : Type := {
  ignore : list string;
  quant_format : string;
  target_scheme_map : list (string * SchemeDict);
  kv_cache_scheme : option RawConfig;
  sparsity_scheme_map : list (string * SparsityCompressionConfig);
  sparsity_ignore_list : list string;
  config : option RawConfig;
  packed_modules_mapping : list (string * list string)
}.

(** What the module takes from its surroundings: the outcome of the
    optional vllm import, the device, the scheme classes'
    [get_min_capability] and the helpers of the package's [utils] module. *)
Record Runtime : Type := {
  VLLM_AVAILABLE : bool;
  WNA16_SUPPORTED_BITS : list Z;
  get_device_capability : Z * Z;
  get_min_capability : SchemeClass -> Z;
  is_activation_quantization_format : string -> bool;
  find_matched_target :
    option string -> Layer -> list string -> list (string * list string) ->
    result string;
  should_ignore_layer :
    string -> list string -> list (string * list string) -> bool
}.

(** A logger call made by [get_scheme]. *)
Inductive LogCall : Type :=
| warning_once (msg : string)
| debug (msg : string) (scheme_class_name : string) (layer_name : option string).

(** The methods [get_quant_method] returns.  [CompressedTensorsMoEMethod]
    stands for the result of [CompressedTensorsMoEMethod.get_moe_method],
    which belongs to another module. *)
Inductive QuantizeMethod : Type :=
| UnquantizedLinearMethod
| CompressedTensorsLinearMethod (quantization_config : CompressedTensorsConfig)
| CompressedTensorsMoEMethod (quantization_config : CompressedTensorsConfig).

(* ------------------------------------------------------------------ *)
(** ** The module's global names                                       *)
(* ------------------------------------------------------------------ *)

(** Names bound at module level whatever the environment: the imports of
    lines 5-40 and the module's own definitions. *)
Definition imported_names : list string :=
  [ "logging"; "suppress"; "Any"; "Dict"; "List"; "Literal"; "NamedTuple";
    "Optional"; "Tuple"; "cast"; "torch";
    "CompressionFormat"; "SparsityCompressionConfig"; "SparsityStructure";
    "QuantizationArgs"; "QuantizationStrategy"; "QuantizationType";
    "BaseModel";
    "LinearMethodBase"; "QuantizationConfig"; "QuantizeMethodBase";
    "CompressedTensorsMoEMethod";
    "CompressedTensorsScheme"; "CompressedTensorsW8A8Fp8";
    "CompressedTensorsW8A16Fp8";
    "find_matched_target"; "is_activation_quantization_format";
    "should_ignore_layer";
    "UnquantizedLinearMethod";
    "VLLM_AVAILABLE"; "logger"; "__all__"; "SPARSITY_CONFIG_NAME";
    "QUANTIZATION_SCHEME_MAP_TYPE"; "DeviceCapability";
    "CompressedTensorsConfig"; "CompressedTensorsLinearMethod" ].

(** Names bound by the [try] block of lines 42-50 when the import from
    vllm succeeds. *)
Definition vllm_names : list string :=
  [ "WNA16_SUPPORTED_BITS"; "CompressedTensorsWNA16" ].

Section Config.

Variable rt : Runtime.
Variable self : CompressedTensorsConfig.

(** Whether [name] is bound in the module's namespace. *)
Definition is_bound (name : string) : bool :=
  mem_str name imported_names || (VLLM_AVAILABLE rt && mem_str name vllm_names).

(** Evaluating a global name: an unbound one raises [NameError]. *)
Definition global (name : string) : result unit :=
  if is_bound name then Return tt else Raise (NameError name).

(* ------------------------------------------------------------------ *)
(** ** Device capability gate                                          *)
(* ------------------------------------------------------------------ *)

(** The [DeviceCapability] built from [torch.cuda.get_device_capability()]. *)
Definition device_capability : DeviceCapability :=
  {| major := fst (get_device_capability rt);
     minor := snd (get_device_capability rt) |}.

(** [_check_scheme_supported] (lines 237-251) *)
Definition _check_scheme_supported (min_capability : Z) (error : bool)
  : result bool :=
  let capability_tuple := Some device_capability in
  match capability_tuple with
  | Some capability_tuple =>
      capability <- to_int capability_tuple ;;
      let supported := min_capability <=? capability in
      if error && negb supported
      then Raise (RuntimeError min_capability capability)
      else Return supported
  | None => Return false
  end.

(* ------------------------------------------------------------------ *)
(** ** Eligibility predicates                                          *)
(* ------------------------------------------------------------------ *)

(** [_is_static_tensor_w8a8] (lines 253-269).  Its first statement reads
    [weight_quant.num_bits] and [input_quant.num_bits]. *)
Definition _is_static_tensor_w8a8
  (weight_quant input_quant : option QuantizationArgs) : result bool :=
  w <- deref weight_quant ;;
  i <- deref input_quant ;;
  let is_8_bits := (num_bits w =? num_bits i) && (num_bits i =? 8) in
  let weight_strategy :=
    strategy_eqb (strategy w) TENSOR || strategy_eqb (strategy w) CHANNEL in
  let is_tensor := weight_strategy && strategy_eqb (strategy i) TENSOR in
  let is_static := negb (dynamic w) && negb (dynamic i) in
  Return (is_8_bits && is_tensor && symmetric w && is_static).

(** [_is_dynamic_token_w8a8] (lines 271-286) *)
Definition _is_dynamic_token_w8a8
  (weight_quant input_quant : option QuantizationArgs) : result bool :=
  w <- deref weight_quant ;;
  i <- deref input_quant ;;
  let is_8_bits := (num_bits w =? num_bits i) && (num_bits i =? 8) in
  let weight_strategy :=
    strategy_eqb (strategy w) TENSOR || strategy_eqb (strategy w) CHANNEL in
  let is_token := weight_strategy && strategy_eqb (strategy i) TOKEN in
  let is_dynamic := negb (dynamic w) && dynamic i in
  Return (is_8_bits && is_token && symmetric w && is_dynamic).

(** [_is_fp8_w8a8] (lines 288-319) *)
Definition _is_fp8_w8a8
  (weight_quant input_quant : option QuantizationArgs) : bool :=
  match weight_quant, input_quant with
  | None, _ | _, None => false
  | Some w, Some i =>
      let is_floating_point :=
        type_eqb (type w) FLOAT && type_eqb (type i) FLOAT in
      let is_symmetric_weight := symmetric w in
      let is_static_weight := negb (dynamic w) in
      let is_per_tensor_or_channel_weight :=
        strategy_in (strategy w) [TENSOR; CHANNEL] in
      if negb (is_floating_point && is_symmetric_weight && is_static_weight
               && is_per_tensor_or_channel_weight)
      then false
      else if dynamic i then true
      else
        let is_symmetric_activation := symmetric i in
        let is_per_tensor_activation := strategy_eqb (strategy i) TENSOR in
        is_symmetric_activation && is_per_tensor_activation
  end.

(** [_is_fp8_w8a16] (lines 321-345) *)
Definition _is_fp8_w8a16
  (weight_quant input_quant : option QuantizationArgs) : bool :=
  match weight_quant with
  | None => false
  | Some w =>
      if negb (type_eqb (type w) FLOAT) then false
      else
        let is_symmetric_weight := symmetric w in
        let is_static_weight := negb (dynamic w) in
        let is_per_tensor_or_channel_weight :=
          strategy_in (strategy w) [TENSOR; CHANNEL] in
        if negb (is_symmetric_weight && is_static_weight
                 && is_per_tensor_or_channel_weight)
        then false
        else true
  end.

(** [_is_wNa16_group_channel] (lines 347-358) *)
Definition _is_wNa16_group_channel
  (weight_quant input_quant : option QuantizationArgs) : result bool :=
  let input_quant_none := is_None input_quant in
  w <- deref weight_quant ;;
  let is_symmetric := symmetric w in
  let is_channel_group :=
    strategy_eqb (strategy w) CHANNEL || strategy_eqb (strategy w) GROUP in
  let is_static := negb (dynamic w) in
  Return (is_channel_group && input_quant_none && is_symmetric && is_static).

(** [supports_cutlass_24] (lines 549-613) *)
Definition supports_cutlass_24
  (weight_quant input_quant : option QuantizationArgs)
  (sparsity_scheme : option SparsityCompressionConfig) : result bool :=
  match sparsity_scheme with
  | None => Return false
  | Some sparsity_scheme =>
      let is_valid_sparsity_structure :=
        match sparsity_structure sparsity_scheme with
        | Some s => String.eqb s SparsityStructure.TWO_FOUR
        | None => false
        end in
      let valid_compressors :=
        [ CompressionFormat.dense; CompressionFormat.sparse_24_bitmask ] in
      let is_valid_sparsity :=
        is_valid_sparsity_structure
        && mem_str (format sparsity_scheme) valid_compressors in
      if negb is_valid_sparsity then Return false
      else if is_None weight_quant && is_None input_quant then Return true
      else if negb (is_None weight_quant) && is_None input_quant
      then Return false
      else
        let supported_weight_quant_strategies := [TENSOR; CHANNEL] in
        assert (negb (is_None weight_quant)) ;;;
        assert (negb (is_None input_quant)) ;;;
        w <- deref weight_quant ;;
        i <- deref input_quant ;;
        if negb (strategy_in (strategy w) supported_weight_quant_strategies)
        then Return false
        else
          let supported_input_quant_strategies := [TENSOR; TOKEN] in
          if negb (strategy_in (strategy i) supported_input_quant_strategies)
          then Return false
          else Return ((num_bits w =? num_bits i) && (num_bits i =? 8))
  end.

(* ------------------------------------------------------------------ *)
(** ** The classifier                                                  *)
(* ------------------------------------------------------------------ *)

(** Evaluating the name of a scheme class. *)
Definition global_class (c : SchemeClass) : result unit :=
  global (class_name c).

(** Evaluating a global that holds a list of bit widths: the module binds
    only [WNA16_SUPPORTED_BITS], and only when vllm was imported. *)
Definition global_bits (name : string) : result (list Z) :=
  global name ;;;
  if String.eqb name "WNA16_SUPPORTED_BITS"
  then Return (WNA16_SUPPORTED_BITS rt)
  else Raise (NameError name).

(** The value of [input_quant and not input_quant.dynamic]. *)
Definition and_not_dynamic (input_quant : option QuantizationArgs)
  : option bool :=
  match input_quant with
  | None => None
  | Some i => Some (negb (dynamic i))
  end.

(** Lines 390-436 of [_get_scheme_from_parts]: the branches under
    [is_activation_quantization_format] and the final [raise].  The
    scheme classes are defined in other modules, and a call of one is
    modelled as the scheme value it builds.  The FP8 w8a16 class relies
    on vllm: lines 411-415 check [VLLM_AVAILABLE] before building it,
    lines 402-408 do not, so what is proved about the scheme built at
    lines 402-408 is proved for a runtime in which vllm is importable. *)
Definition activation_quantization_schemes
  (weight_quant input_quant : option QuantizationArgs) : result Scheme :=
  let not_found :=
    Raise (NotImplementedError
             "No compressed-tensors compatible scheme was found.") in
  if is_activation_quantization_format rt (quant_format self) then
    if _is_fp8_w8a8 weight_quant input_quant then
      global_class cls_CompressedTensorsW8A8Fp8 ;;;
      is_fp8_w8a8_supported <-
        _check_scheme_supported
          (get_min_capability rt cls_CompressedTensorsW8A8Fp8) false ;;
      if is_fp8_w8a8_supported then
        global_class cls_CompressedTensorsW8A8Fp8 ;;;
        w <- deref weight_quant ;;
        Return (CompressedTensorsW8A8Fp8 (strategy w)
                  (and_not_dynamic input_quant))
      else
        global_class cls_CompressedTensorsW8A16Fp8 ;;;
        w <- deref weight_quant ;;
        i <- deref input_quant ;;
        Return (CompressedTensorsW8A16Fp8 (strategy w)
                  (Some (negb (dynamic i))))
    else if _is_fp8_w8a16 weight_quant input_quant then
      if negb (VLLM_AVAILABLE rt) then
        Raise (ImportError
                 "vllm is not installed, to use CompressedTensorsW8A16Fp8, please install vllm")
      else
        let is_static_input_scheme := and_not_dynamic input_quant in
        global_class cls_CompressedTensorsW8A16Fp8 ;;;
        w <- deref weight_quant ;;
        Return (CompressedTensorsW8A16Fp8 (strategy w) is_static_input_scheme)
    else
      is_static <- _is_static_tensor_w8a8 weight_quant input_quant ;;
      if is_static then
        global_class cls_CompressedTensorsW8A8Int8 ;;;
        w <- deref weight_quant ;;
        i <- deref input_quant ;;
        Return (CompressedTensorsW8A8Int8 (strategy w) true (symmetric i))
      else
        is_dynamic <- _is_dynamic_token_w8a8 weight_quant input_quant ;;
        if is_dynamic then
          global_class cls_CompressedTensorsW8A8Int8 ;;;
          w <- deref weight_quant ;;
          i <- deref input_quant ;;
          Return (CompressedTensorsW8A8Int8 (strategy w) false (symmetric i))
        else not_found
  else not_found.

(** [_get_scheme_from_parts] (lines 360-436) *)
Definition _get_scheme_from_parts
  (weight_quant input_quant : option QuantizationArgs) : result Scheme :=
  is_mixed <- _is_wNa16_group_channel weight_quant input_quant ;;
  if is_mixed then
    if negb (VLLM_AVAILABLE rt) then
      Raise (ImportError
               "vllm is not installed, to use CompressedTensorsW4A16Sparse24 and CompressedTensorsWNA16, please install vllm")
    else
      w <- deref weight_quant ;;
      sparse24 <-
        (if String.eqb (quant_format self) CompressionFormat.marlin_24
         then bits <- global_bits "W4A16SPARSE24_SUPPORTED_BITS" ;;
              Return (mem_int (num_bits w) bits)
         else Return false) ;;
      if sparse24 then
        global_class cls_CompressedTensorsW4A16Sparse24 ;;;
        Return (CompressedTensorsW4A16Sparse24
                  (strategy w) (num_bits w) (group_size w))
      else
        packed <-
          (if String.eqb (quant_format self) CompressionFormat.pack_quantized
           then bits <- global_bits "WNA16_SUPPORTED_BITS" ;;
                Return (mem_int (num_bits w) bits)
           else Return false) ;;
        if packed then
          global_class cls_CompressedTensorsWNA16 ;;;
          Return (CompressedTensorsWNA16
                    (num_bits w) (strategy w) (group_size w) (actorder w))
        else activation_quantization_schemes weight_quant input_quant
  else activation_quantization_schemes weight_quant input_quant.

(** A result together with the logger calls made on the way. *)
Definition Logged (A : Type) : Type := (list LogCall * result A)%type.

Definition lift {A : Type} (r : result A) : Logged A := ([], r).

Definition emit (c : LogCall) : Logged unit := ([c], Return tt).

Definition lbind {A B : Type} (m : Logged A) (k : A -> Logged B) : Logged B :=
  match m with
  | (l, Return a) => let (l', r) := k a in (l ++ l', r)
  | (l, Raise e) => (l, Raise e)
  end.

(** Lines 461-472 of [get_scheme]: the quantization arguments of the
    matched target; both are [None] when [target_scheme_map] is empty. *)
Definition matched_quant (layer : Layer) (layer_name : option string)
  : result (option QuantizationArgs * option QuantizationArgs) :=
  match target_scheme_map self with
  | [] => Return (None, None)
  | _ :: _ =>
      matched_target <-
        find_matched_target rt layer_name layer
          (keys (target_scheme_map self)) (packed_modules_mapping self) ;;
      scheme_dict <- getitem (target_scheme_map self) matched_target ;;
      Return (weights scheme_dict, input_activations scheme_dict)
  end.

(** Lines 476-487 of [get_scheme]: the sparsity scheme of the matched
    target; a [ValueError] of the matcher is suppressed and leaves [None].
    The targets are the keys of [sparsity_scheme_map] outside
    [sparsity_ignore_list], here in the order of the keys. *)
Definition matched_sparsity (layer : Layer) (layer_name : option string)
  : result (option SparsityCompressionConfig) :=
  let sparsity_targets :=
    filter (fun t => negb (mem_str t (sparsity_ignore_list self)))
           (keys (sparsity_scheme_map self)) in
  match find_matched_target rt layer_name layer sparsity_targets
          (packed_modules_mapping self) with
  | Raise (ValueError _) => Return None
  | Raise e => Raise e
  | Return matched_target =>
      sparsity_scheme <- getitem (sparsity_scheme_map self) matched_target ;;
      Return (Some sparsity_scheme)
  end.

(** Lines 527-531 of [get_scheme]: the final capability gate. *)
Definition check_and_return (scheme : Scheme) (layer_name : option string)
  : Logged (option Scheme) :=
  lbind (lift (_check_scheme_supported
                 (get_min_capability rt (class_of scheme)) true)) (fun _ =>
  lbind (emit (debug "Using scheme: %s for %s"
                 (class_name (class_of scheme)) layer_name)) (fun _ =>
  lift (Return (Some scheme)))).

(** Lines 489-531 of [get_scheme]: the decision on the triple
    (weight_quant, input_quant, sparsity_scheme). *)
Definition select_scheme
  (weight_quant input_quant : option QuantizationArgs)
  (sparsity_scheme : option SparsityCompressionConfig)
  (layer_name : option string) : Logged (option Scheme) :=
  lbind (lift (supports_cutlass_24 weight_quant input_quant sparsity_scheme))
  (fun cutlass_24 =>
  if cutlass_24 then
    if negb (VLLM_AVAILABLE rt) then
      lift (Raise (ImportError
                     "vllm is not installed, to use CompressedTensors24, please install vllm"))
    else
      let model_compression_config :=
        match sparsity_scheme with
        | None => None
        | Some s => if String.eqb (format s) "dense" then None else config self
        end in
      lbind (lift (global_class cls_CompressedTensors24 ;;;
                   Return (CompressedTensors24
                             (negb (is_None weight_quant)
                              || negb (is_None input_quant))
                             weight_quant input_quant
                             model_compression_config)))
            (fun scheme => check_and_return scheme layer_name)
  else
    match weight_quant with
    | None =>
        lbind (emit (warning_once
                       "Acceleration for non-quantized schemes is not supported by Compressed Tensors. Falling back to UnquantizedLinearMethod"))
              (fun _ => lift (Return None))
    | Some _ =>
        lbind (lift (_get_scheme_from_parts weight_quant input_quant))
              (fun scheme => check_and_return scheme layer_name)
    end).

(** [get_scheme] (lines 438-531) *)
Definition get_scheme (layer : Layer) (layer_name : option string)
  : Logged (option Scheme) :=
  lbind (lift (matched_quant layer layer_name)) (fun quant =>
  let weight_quant := fst quant in
  let input_quant := snd quant in
  lbind (lift (matched_sparsity layer layer_name)) (fun sparsity_scheme =>
  select_scheme weight_quant input_quant sparsity_scheme layer_name)).

(** [get_quant_method] (lines 117-140): the method returned, and the layer
    with the [scheme] attribute it was given. *)
Definition get_quant_method (layer : Layer) (prefix : string)
  : Logged (option QuantizeMethod * Layer) :=
  if should_ignore_layer rt prefix (ignore self) (packed_modules_mapping self)
  then lift (Return (Some UnquantizedLinearMethod, layer))
  else if is_LinearBase layer then
    lbind (get_scheme layer (Some prefix)) (fun scheme =>
    match scheme with
    | None => lift (Return (Some UnquantizedLinearMethod, layer))
    | Some s =>
        lift (Return (Some (CompressedTensorsLinearMethod self),
                      set_scheme layer s))
    end)
  else if is_FusedMoE layer then
    lift (Return (Some (CompressedTensorsMoEMethod self), layer))
  else lift (Return (None, layer)).

(** [get_cache_scale] (lines 533-547) *)
Definition get_cache_scale (name : string) : option string :=
  if endswith name ".output_scale" && contains ".k_proj" name then
    Some (replace name ".k_proj.output_scale" ".attn.k_scale")
  else if endswith name ".output_scale" && contains ".v_proj" name then
    Some (replace name ".v_proj.output_scale" ".attn.v_scale")
  else None.

End Config.

(* ------------------------------------------------------------------ *)
(** ** Building the configuration                                      *)
(* ------------------------------------------------------------------ *)

(** The outcome of reading a raw configuration.  [Outside] marks a run
    that leaves the typed model: the configuration departs from the schema
    the type annotations assume (a target that is not a string, a missing
    [format], ...), where Python raises [TypeError] or goes on with a value
    of another type.  Nothing is stated about such a run. *)
Inductive outcome (A : Type) : Type :=
| Done (a : A)
| Fails (e : exn)
| Outside.

Arguments Done {A} a.
Arguments Fails {A} e.
Arguments Outside {A}.

Definition obind {A B : Type} (m : outcome A) (k : A -> outcome B)
  : outcome B :=
  match m with
  | Done a => k a
  | Fails e => Fails e
  | Outside => Outside
  end.

Definition of_result {A : Type} (r : result A) : outcome A :=
  match r with
  | Return a => Done a
  | Raise e => Fails e
  end.

(** A value the model needs at a given type. *)
Definition typed {A : Type} (o : option A) : outcome A :=
  match o with
  | Some a => Done a
  | None => Outside
  end.

(** [d.get(key)]; Python's [None] is [JNull]. *)
Fixpoint dict_get (d : RawConfig) (key : string) : Json :=
  match d with
  | [] => JNull
  | (k, v) :: d' => if String.eqb k key then v else dict_get d' key
  end.

(** [d.get(key, default)] *)
Fixpoint dict_get_default (d : RawConfig) (key : string) (default : Json)
  : Json :=
  match d with
  | [] => default
  | (k, v) :: d' =>
      if String.eqb k key then v else dict_get_default d' key default
  end.

(** [d[key] = value]: an existing key keeps its place, a new one goes last. *)
Fixpoint setitem {V : Type} (d : list (string * V)) (key : string) (value : V)
  : list (string * V) :=
  match d with
  | [] => [(key, value)]
  | (k, v) :: d' =>
      if String.eqb k key then (k, value) :: d'
      else (k, v) :: setitem d' key value
  end.

(** The truth value of a JSON value. *)
Definition truthy (v : Json) : bool :=
  match v with
  | JNull => false
  | JBool b => b
  | JInt z => negb (z =? 0)
  | JStr s => negb (String.eqb s "")
  | JList l => negb (match l with [] => true | _ :: _ => false end)
  | JDict d => negb (match d with [] => true | _ :: _ => false end)
  end.

(** [x or list()] on an optional list. *)
Definition or_list {A : Type} (x : option (list A)) : list A :=
  match x with
  | Some l => l
  | None => []
  end.

(** A value whose [.items()] or [.get()] is called: only a dictionary has
    the methods. *)
Definition as_dict (v : Json) : result (list (string * Json)) :=
  match v with
  | JDict d => Return d
  | _ => Raise AttributeError
  end.

(** The elements [for x in v] runs over: those of a list, the characters
    of a string, the keys of a dictionary; nothing else is iterable. *)
Definition iterate (v : Json) : option (list Json) :=
  match v with
  | JList l => Some l
  | JStr s => Some (map (fun c => JStr (String c EmptyString))
                        (list_ascii_of_string s))
  | JDict d => Some (map (fun kv => JStr (fst kv)) d)
  | _ => None
  end.

Definition as_str (v : Json) : option string :=
  match v with
  | JStr s => Some s
  | _ => None
  end.

Fixpoint as_str_list_aux (l : list Json) : option (list string) :=
  match l with
  | [] => Some []
  | v :: l' =>
      match as_str v, as_str_list_aux l' with
      | Some s, Some r => Some (s :: r)
      | _, _ => None
      end
  end.

Definition as_str_list (v : Json) : option (list string) :=
  match v with
  | JList l => as_str_list_aux l
  | _ => None
  end.

Fixpoint as_mapping_aux (d : list (string * Json))
  : option (list (string * list string)) :=
  match d with
  | [] => Some []
  | (k, v) :: d' =>
      match as_str_list v, as_mapping_aux d' with
      | Some l, Some r => Some ((k, l) :: r)
      | _, _ => None
      end
  end.

Definition as_mapping (v : Json) : option (list (string * list string)) :=
  match v with
  | JDict d => as_mapping_aux d
  | _ => None
  end.

Definition SPARSITY_CONFIG_NAME : string := "sparsity_config".

Section FromConfig.

Variable rt : Runtime.

(** [QuantizationArgs.model_validate] and
    [SparsityCompressionConfig.model_validate], of the [compressed_tensors]
    package. *)
Variable validate_args : Json -> result QuantizationArgs.
Variable validate_sparsity : Json -> result SparsityCompressionConfig.

(** [_parse_sparsity_config] (lines 162-181) *)
Definition _parse_sparsity_config (config : RawConfig)
  : result (list (string * SparsityCompressionConfig) * list string) :=
  let sparsity_config := dict_get config SPARSITY_CONFIG_NAME in
  if negb (truthy sparsity_config) then Return ([], [])
  else
    sparsity_config <- validate_sparsity sparsity_config ;;
    let sparse_scheme_map :=
      fold_left (fun d target => setitem d target sparsity_config)
                (or_list (sparsity_targets sparsity_config)) [] in
    let sparsity_ignore_list := or_list (sparsity_ignore sparsity_config) in
    Return (sparse_scheme_map, sparsity_ignore_list).

(** Lines 208-230: the dictionary stored for one target of a group. *)
Definition scheme_dict_of (format : Json) (quant_config : RawConfig)
  : outcome SchemeDict :=
  obind (of_result (validate_args (dict_get quant_config "weights")))
  (fun w =>
  obind (typed (as_str format)) (fun quant_format =>
  if is_activation_quantization_format rt quant_format then
    let input_activations := dict_get quant_config "input_activations" in
    if negb (truthy input_activations) then
      obind (of_result (assert (type_eqb (type w) FLOAT))) (fun _ =>
      Done {| weights := Some w; input_activations := None |})
    else
      obind (of_result
               (validate_args (dict_get quant_config "input_activations")))
      (fun i => Done {| weights := Some w; input_activations := Some i |})
  else Done {| weights := Some w; input_activations := None |})).

(** Lines 207-230: the loop over the targets of one group. *)
Fixpoint add_targets (format : Json) (quant_config : RawConfig)
  (targets : list Json) (target_scheme_map : list (string * SchemeDict))
  : outcome (list (string * SchemeDict)) :=
  match targets with
  | [] => Done target_scheme_map
  | target :: targets' =>
      obind (typed (as_str target)) (fun target =>
      obind (scheme_dict_of format quant_config) (fun d =>
      add_targets format quant_config targets'
        (setitem target_scheme_map target d)))
  end.

(** Lines 205-230: the loop over the groups. *)
Fixpoint add_groups (format : Json) (groups : list (string * Json))
  (target_scheme_map : list (string * SchemeDict))
  : outcome (list (string * SchemeDict)) :=
  match groups with
  | [] => Done target_scheme_map
  | (_, quant_config) :: groups' =>
      obind (of_result (as_dict quant_config)) (fun quant_config =>
      obind (typed (iterate (dict_get quant_config "targets")))
      (fun targets =>
      obind (add_targets format quant_config targets target_scheme_map)
      (fun target_scheme_map =>
      add_groups format groups' target_scheme_map)))
  end.

(** [_quantization_scheme_map_from_config] (lines 183-231) *)
Definition _quantization_scheme_map_from_config (config : RawConfig)
  : outcome (list (string * SchemeDict)) :=
  let quant_format := dict_get config "format" in
  let config_groups := dict_get_default config "config_groups" (JDict []) in
  obind (of_result (as_dict config_groups)) (fun groups =>
  add_groups quant_format groups []).

(** [from_config] (lines 142-160) *)
Definition from_config (config : RawConfig) : outcome CompressedTensorsConfig :=
  let ignore := dict_get_default config "ignore" (JList []) in
  let quant_format := dict_get config "format" in
  obind (_quantization_scheme_map_from_config config)
  (fun target_scheme_map =>
  obind (of_result (_parse_sparsity_config config)) (fun sparsity =>
  let packed_modules_mapping :=
    dict_get_default config "packed_modules_mapping" (JDict []) in
  obind (typed (as_str_list ignore)) (fun ignore =>
  obind (typed (as_str quant_format)) (fun quant_format =>
  obind (typed (as_mapping packed_modules_mapping))
  (fun packed_modules_mapping =>
  Done {| ignore := ignore;
          quant_format := quant_format;
          target_scheme_map := target_scheme_map;
          kv_cache_scheme := None;
          sparsity_scheme_map := fst sparsity;
          sparsity_ignore_list := snd sparsity;
          config := Some config;
          packed_modules_mapping := packed_modules_mapping |}))))).

End FromConfig.

(** Whether the string [t] is among the JSON values [l]. *)
Definition mentions (t : string) (l : list Json) : bool :=
  existsb (fun x => match x with JStr s => String.eqb s t | _ => false end) l.

(** A group does not list [t] among its targets. *)
Definition group_skips (t : string) (g : Json) : Prop :=
  forall qc targets,
    g = JDict qc ->
    iterate (dict_get qc "targets") = Some targets ->
    ~ In (JStr t) targets.

(** What holds of every dictionary the loop stores, under format [fmt]. *)
Definition entry_ok (rt : Runtime) (fmt : string) (d : SchemeDict) : Prop :=
  exists w,
    weights d = Some w
    /\ (input_activations d <> None ->
        is_activation_quantization_format rt fmt = true)
    /\ (input_activations d = None ->
        is_activation_quantization_format rt fmt = true ->
        type w = FLOAT).

(** The state of the loops: the entries stored so far are well formed and
    the keys are distinct. *)
Definition map_ok (rt : Runtime) (format : Json)
  (m : list (string * SchemeDict)) : Prop :=
  NoDup (keys m)
  /\ forall k d,
       In (k, d) m -> exists fmt, format = JStr fmt /\ entry_ok rt fmt d.

(* ------------------------------------------------------------------ *)
(** ** A concrete environment                                          *)
(* ------------------------------------------------------------------ *)

Module Example.

(** Modelled from the spec: [find_matched_target] belongs to the package's
    [utils] module.  Section 4.2 of the spec has it try an exact match of
    the layer name against the targets and a match of the module class
    name, and fail with a "no match" condition ([ValueError]) when none
    applies.  This instance implements these two steps. *)
Definition match_by_name_or_class
  (layer_name : option string) (module : Layer) (targets : list string)
  (fused_mapping : list (string * list string)) : result string :=
  let no_match :=
    Raise (ValueError "Unable to find matching target in the config") in
  match layer_name with
  | Some name =>
      if mem_str name targets then Return name
      else if mem_str (module_class module) targets
      then Return (module_class module)
      else no_match
  | None =>
      if mem_str (module_class module) targets
      then Return (module_class module)
      else no_match
  end.

(** Modelled from the spec: [is_activation_quantization_format] belongs to
    the package's [utils] module; the spec calls it a predicate keyed on
    the format string that holds of the activation-quantizing formats. *)
Definition activation_quantizing (fmt : string) : bool :=
  mem_str fmt [ CompressionFormat.naive_quantized;
                CompressionFormat.int_quantized;
                CompressionFormat.float_quantized ].

(** Modelled from the spec: [should_ignore_layer] belongs to the package's
    [utils] module; this instance skips the layers listed by name. *)
Definition ignored_by_name
  (layer_name : string) (ignore : list string)
  (fused_mapping : list (string * list string)) : bool :=
  mem_str layer_name ignore.

(** Minimum capabilities of the scheme classes; the FP8 w8a8 scheme needs
    capability 89. *)
Definition min_capability (c : SchemeClass) : Z :=
  match c with
  | cls_CompressedTensors24 => 90
  | cls_CompressedTensorsW8A8Fp8 => 89
  | cls_CompressedTensorsW8A8Int8 => 75
  | _ => 80
  end.

(** An environment with vllm installed or not, on a given device. *)
Definition runtime (vllm : bool) (device : Z * Z) : Runtime :=
  {| VLLM_AVAILABLE := vllm;
     WNA16_SUPPORTED_BITS := [4; 8];
     get_device_capability := device;
     get_min_capability := min_capability;
     is_activation_quantization_format := activation_quantizing;
     find_matched_target := match_by_name_or_class;
     should_ignore_layer := ignored_by_name |}.

Definition fp8_tensor (is_dynamic : bool) : QuantizationArgs :=
  {| num_bits := 8; type := FLOAT; strategy := TENSOR; symmetric := true;
     dynamic := is_dynamic; group_size := None; actorder := None |}.

Definition int8_tensor : QuantizationArgs :=
  {| num_bits := 8; type := INT; strategy := TENSOR; symmetric := true;
     dynamic := false; group_size := None; actorder := None |}.

Definition int8_token_dynamic : QuantizationArgs :=
  {| num_bits := 8; type := INT; strategy := TOKEN; symmetric := true;
     dynamic := true; group_size := None; actorder := None |}.

Definition int4_group : QuantizationArgs :=
  {| num_bits := 4; type := INT; strategy := GROUP; symmetric := true;
     dynamic := false; group_size := Some 128; actorder := None |}.

Definition sparse_24 (fmt : string) : SparsityCompressionConfig :=
  {| format := fmt;
     sparsity_structure := Some SparsityStructure.TWO_FOUR;
     sparsity_targets := Some ["Linear"];
     sparsity_ignore := None |}.

Definition linear : Layer :=
  {| module_class := "Linear"; is_LinearBase := true; is_FusedMoE := false;
     scheme := None |}.

(** A configuration of the given format with one quantization group and
    one sparsity scheme, both targeting the module class [Linear]. *)
Definition config_of (fmt : string)
  (quant : option SchemeDict) (sparsity : option SparsityCompressionConfig)
  : CompressedTensorsConfig :=
  {| ignore := ["lm_head"];
     quant_format := fmt;
     target_scheme_map :=
       match quant with Some d => [("Linear", d)] | None => [] end;
     kv_cache_scheme := None;
     sparsity_scheme_map :=
       match sparsity with Some s => [("Linear", s)] | None => [] end;
     sparsity_ignore_list := [];
     config := Some [("format", JStr fmt)];
     packed_modules_mapping := [] |}.

Definition both (w i : QuantizationArgs) : option SchemeDict :=
  Some {| weights := Some w; input_activations := Some i |}.

End Example.

Module ExampleParse.

(** Modelled from the spec: the validation of the [compressed_tensors]
    models is not part of the sources.  This instance reads the fields the
    spec's data model lists from a JSON object and raises [ValueError] on
    anything else. *)
Definition strategy_of (v : Json) : option QuantizationStrategy :=
  match v with
  | JStr "tensor" => Some TENSOR
  | JStr "channel" => Some CHANNEL
  | JStr "group" => Some GROUP
  | JStr "token" => Some TOKEN
  | _ => None
  end.

Definition type_of (v : Json) : option QuantizationType :=
  match v with
  | JStr "int" => Some INT
  | JStr "float" => Some FLOAT
  | _ => None
  end.

Definition validate_args (v : Json) : result QuantizationArgs :=
  let invalid := Raise (ValueError "validation error for QuantizationArgs") in
  match v with
  | JDict d =>
      match dict_get d "num_bits", type_of (dict_get d "type"),
            strategy_of (dict_get d "strategy"),
            dict_get d "symmetric", dict_get d "dynamic" with
      | JInt n, Some t, Some s, JBool sy, JBool dy =>
          Return {| num_bits := n; type := t; strategy := s;
                    symmetric := sy; dynamic := dy;
                    group_size :=
                      match dict_get d "group_size" with
                      | JInt g => Some g
                      | _ => None
                      end;
                    actorder := None |}
      | _, _, _, _, _ => invalid
      end
  | _ => invalid
  end.

Definition validate_sparsity (v : Json) : result SparsityCompressionConfig :=
  let invalid :=
    Raise (ValueError "validation error for SparsityCompressionConfig") in
  match v with
  | JDict d =>
      match dict_get d "format" with
      | JStr f =>
          Return {| format := f;
                    sparsity_structure := as_str (dict_get d "sparsity_structure");
                    sparsity_targets := as_str_list (dict_get d "targets");
                    sparsity_ignore := as_str_list (dict_get d "ignore") |}
      | _ => invalid
      end
  | _ => invalid
  end.

Definition args (bits : Z) (ty st : string) (is_dynamic : bool) : Json :=
  JDict [("num_bits", JInt bits); ("type", JStr ty);
         ("strategy", JStr st); ("symmetric", JBool true);
         ("dynamic", JBool is_dynamic)].

(** A configuration with two groups that both list [Linear], the second
    also [Embedding], and a 2:4 sparsity configuration. *)
Definition raw_config : RawConfig :=
  [ ("format", JStr "float-quantized");
    ("ignore", JList [JStr "lm_head"]);
    ("config_groups",
     JDict [ ("group_0",
              JDict [ ("targets", JList [JStr "Linear"]);
                      ("weights", args 8 "int" "tensor" false);
                      ("input_activations", args 8 "int" "token" true) ]);
             ("group_1",
              JDict [ ("targets", JList [JStr "Linear"; JStr "Embedding"]);
                      ("weights", args 8 "float" "tensor" false);
                      ("input_activations",
                       args 8 "float" "tensor" false) ]) ]);
    ("sparsity_config",
     JDict [ ("format", JStr "dense");
             ("sparsity_structure", JStr "2:4");
             ("targets", JList [JStr "Linear"; JStr "Linear"]);
             ("ignore", JList [JStr "lm_head"]) ]) ].

Definition parsed : CompressedTensorsConfig :=
  {| ignore := ["lm_head"];
     quant_format := "float-quantized";
     target_scheme_map :=
       [ ("Linear",
          {| weights := Some (Example.fp8_tensor false);
             input_activations := Some (Example.fp8_tensor false) |});
         ("Embedding",
          {| weights := Some (Example.fp8_tensor false);
             input_activations := Some (Example.fp8_tensor false) |}) ];
     kv_cache_scheme := None;
     sparsity_scheme_map :=
       [ ("Linear",
          {| format := "dense"; sparsity_structure := Some "2:4";
             sparsity_targets := Some ["Linear"; "Linear"];
             sparsity_ignore := Some ["lm_head"] |}) ];
     sparsity_ignore_list := ["lm_head"];
     config := Some raw_config;
     packed_modules_mapping := [] |}.

End ExampleParse.

(* ------------------------------------------------------------------ *)
(** ** The eligibility conditions, as the specification words them     *)
(* ------------------------------------------------------------------ *)

Module Spec.

(** A sparsity scheme is present, its structure is 2:4 and its format is
    dense or sparse_24_bitmask. *)
Definition valid_24_sparsity (s : option SparsityCompressionConfig) : Prop :=
  exists sp,
    s = Some sp
    /\ sparsity_structure sp = Some SparsityStructure.TWO_FOUR
    /\ (format sp = CompressionFormat.dense
        \/ format sp = CompressionFormat.sparse_24_bitmask).

(** Both sides present and 8-bit, weight strategy TENSOR or CHANNEL, input
    strategy TENSOR or TOKEN. *)
Definition quantized_24 (w i : option QuantizationArgs) : Prop :=
  exists wq iq,
    w = Some wq /\ i = Some iq
    /\ num_bits wq = 8 /\ num_bits iq = 8
    /\ (strategy wq = TENSOR \/ strategy wq = CHANNEL)
    /\ (strategy iq = TENSOR \/ strategy iq = TOKEN).

(** Valid 2:4 sparsity, and either no quantization at all or a supported
    8-bit quantization of both sides. *)
Definition cutlass_24_eligible
  (w i : option QuantizationArgs) (s : option SparsityCompressionConfig)
  : Prop :=
  valid_24_sparsity s /\ ((w = None /\ i = None) \/ quantized_24 w i).

(** Both sides present and float-typed, the weight symmetric, static and
    of strategy TENSOR or CHANNEL, the input dynamic or else symmetric with
    strategy TENSOR. *)
Definition fp8_w8a8_eligible (w i : option QuantizationArgs) : Prop :=
  exists wq iq,
    w = Some wq /\ i = Some iq
    /\ type wq = FLOAT /\ type iq = FLOAT
    /\ symmetric wq = true /\ dynamic wq = false
    /\ (strategy wq = TENSOR \/ strategy wq = CHANNEL)
    /\ (dynamic iq = true \/ (symmetric iq = true /\ strategy iq = TENSOR)).

(** Both sides present and 8-bit, weight strategy TENSOR or CHANNEL, input
    strategy TOKEN, the weight symmetric and static, the input dynamic. *)
Definition dynamic_token_w8a8_eligible (w i : option QuantizationArgs) : Prop :=
  exists wq iq,
    w = Some wq /\ i = Some iq
    /\ num_bits wq = 8 /\ num_bits iq = 8
    /\ (strategy wq = TENSOR \/ strategy wq = CHANNEL)
    /\ strategy iq = TOKEN
    /\ symmetric wq = true
    /\ dynamic wq = false /\ dynamic iq = true.

(** The input shape on which the assertion fails: no weight quantization,
    an input quantization, and a valid 2:4 sparsity scheme. *)
Definition input_only_24
  (w i : option QuantizationArgs) (s : option SparsityCompressionConfig)
  : Prop :=
  w = None /\ i <> None /\ valid_24_sparsity s.

(** A scheme is weight-only N-bit with the given group size. *)
Definition weight_only_with_group_size (s : Scheme) (g : option Z) : Prop :=
  match s with
  | CompressedTensorsWNA16 _ _ g' _ => g' = g
  | CompressedTensorsW4A16Sparse24 _ _ g' => g' = g
  | _ => False
  end.

(** A logged computation ends in an exception. *)
Definition raises {A : Type} (m : Logged A) : Prop :=
  exists e, snd m = Raise e.

(** The message of the one-time warning of [get_scheme]. *)
Definition fallback_warning : string :=
  "Acceleration for non-quantized schemes is not supported by Compressed Tensors. Falling back to UnquantizedLinearMethod".

End Spec.

(** Further conditions on the quantization arguments. *)
Module Cond.

(** Both sides present and 8-bit, weight strategy TENSOR or CHANNEL, input
    strategy TENSOR, the weight symmetric, both sides static. *)
Definition static_tensor_w8a8_eligible (w i : option QuantizationArgs) : Prop :=
  exists wq iq,
    w = Some wq /\ i = Some iq
    /\ num_bits wq = 8 /\ num_bits iq = 8
    /\ (strategy wq = TENSOR \/ strategy wq = CHANNEL)
    /\ strategy iq = TENSOR
    /\ symmetric wq = true
    /\ dynamic wq = false /\ dynamic iq = false.

(** No input quantization, and a symmetric static weight of strategy
    CHANNEL or GROUP. *)
Definition wNa16_eligible (w i : option QuantizationArgs) : Prop :=
  i = None
  /\ exists wq,
       w = Some wq
       /\ (strategy wq = CHANNEL \/ strategy wq = GROUP)
       /\ symmetric wq = true /\ dynamic wq = false.

(** A float-typed, symmetric, static weight of strategy TENSOR or CHANNEL. *)
Definition fp8_w8a16_eligible (w : option QuantizationArgs) : Prop :=
  exists wq,
    w = Some wq
    /\ type wq = FLOAT
    /\ symmetric wq = true /\ dynamic wq = false
    /\ (strategy wq = TENSOR \/ strategy wq = CHANNEL).

End Cond.

(* ------------------------------------------------------------------ *)
(** ** Proofs                                                          *)
(* ------------------------------------------------------------------ *)

(** Case analysis on every field an eligibility predicate reads. *)
Ltac split_quant q :=
  let nb := fresh "nb" in
  let ty := fresh "ty" in
  let st := fresh "st" in
  let sy := fresh "sy" in
  let dy := fresh "dy" in
  let gs := fresh "gs" in
  let ao := fresh "ao" in
  destruct q as [nb ty st sy dy gs ao]; cbn [num_bits type strategy symmetric dynamic group_size actorder] in *.

Ltac break_eqb :=
  repeat match goal with
         | |- context [Z.eqb ?a ?b] => destruct (Z.eqb_spec a b); subst
         | |- context [String.eqb ?a ?b] => destruct (String.eqb_spec a b); subst
         end.

Ltac spec_solve :=
  repeat match goal with
         | H : exists _, _ |- _ => destruct H
         | H : _ /\ _ |- _ => destruct H
         | H : _ \/ _ |- _ => destruct H
         | H : Some _ = Some _ |- _ => injection H as H; subst
         | H : Return _ = Return _ |- _ => injection H as H
         end;
  cbn [num_bits type strategy symmetric dynamic format sparsity_structure] in *;
  subst;
  try discriminate; try congruence; try lia.

Lemma mem_str_two (x a b : string) :
  mem_str x [a; b] = true <-> x = a \/ x = b.
Proof.
  unfold mem_str; cbn [existsb].
  destruct (String.eqb_spec x a), (String.eqb_spec x b); cbn;
    intuition congruence.
Qed.

Lemma valid_24_sparsity_dec (sp : SparsityCompressionConfig) :
  (match sparsity_structure sp with
   | Some s => String.eqb s SparsityStructure.TWO_FOUR
   | None => false
   end
   && mem_str (format sp)
        [CompressionFormat.dense; CompressionFormat.sparse_24_bitmask]) = true
  <-> Spec.valid_24_sparsity (Some sp).
Proof.
  unfold Spec.valid_24_sparsity.
  rewrite andb_true_iff, mem_str_two. split.
  - intros [Hs Hf]. exists sp. repeat split; auto.
    destruct (sparsity_structure sp) as [s|]; [|discriminate].
    apply String.eqb_eq in Hs. now subst.
  - intros (sp' & E & Hs & Hf). injection E as <-. split; auto.
    rewrite Hs. apply String.eqb_refl.
Qed.

Lemma valid_24_sparsity_false (sp : SparsityCompressionConfig) :
  (match sparsity_structure sp with
   | Some s => String.eqb s SparsityStructure.TWO_FOUR
   | None => false
   end
   && mem_str (format sp)
        [CompressionFormat.dense; CompressionFormat.sparse_24_bitmask]) = false
  <-> ~ Spec.valid_24_sparsity (Some sp).
Proof.
  rewrite <- valid_24_sparsity_dec. now destruct (_ && _).
Qed.

(** [supports_cutlass_24] returns [True] exactly on the eligible triples. *)
Lemma supports_cutlass_24_true_iff
  (w i : option QuantizationArgs) (s : option SparsityCompressionConfig) :
  supports_cutlass_24 w i s = Return true <-> Spec.cutlass_24_eligible w i s.
Proof.
  unfold Spec.cutlass_24_eligible, supports_cutlass_24.
  destruct s as [sp|].
  - destruct (_ && _) eqn:V.
    + apply valid_24_sparsity_dec in V. cbn [negb].
      destruct w as [wq|], i as [iq|]; cbn.
      * split_quant wq; split_quant iq. unfold Spec.quantized_24.
        destruct st, st0; cbn; break_eqb; cbn;
          (split; [intros H;
                   first [discriminate H
                         |split; [exact V
                                 |right; do 2 eexists; cbn; intuition eauto]]
                  |intros [_ H]; spec_solve]).
      * split; [discriminate|]. intros [_ H]. unfold Spec.quantized_24 in H. spec_solve.
      * split; [discriminate|]. intros [_ H]. unfold Spec.quantized_24 in H. spec_solve.
      * split; auto.
    + apply valid_24_sparsity_false in V. cbn [negb].
      split; [discriminate|]. intros [H _]. contradiction.
  - split; [discriminate|]. intros [(sp & E & _) _]. discriminate.
Qed.

(** [_is_fp8_w8a8] returns [True] exactly on the eligible pairs. *)
Lemma _is_fp8_w8a8_true_iff (w i : option QuantizationArgs) :
  _is_fp8_w8a8 w i = true <-> Spec.fp8_w8a8_eligible w i.
Proof.
  unfold Spec.fp8_w8a8_eligible, _is_fp8_w8a8.
  destruct w as [wq|], i as [iq|];
    try (split; [discriminate|intros H; spec_solve]).
  split_quant wq; split_quant iq.
  destruct ty, ty0, sy, dy, st; cbn;
    try (split; [discriminate|intros H; spec_solve]);
    destruct dy0, sy0, st0; cbn;
    (split; [intros H;
             first [discriminate H|do 2 eexists; cbn; intuition eauto]
            |intros H; spec_solve]).
Qed.

(** [_is_dynamic_token_w8a8] returns [True] exactly on the eligible pairs. *)
Lemma _is_dynamic_token_w8a8_true_iff (w i : option QuantizationArgs) :
  _is_dynamic_token_w8a8 w i = Return true
  <-> Spec.dynamic_token_w8a8_eligible w i.
Proof.
  unfold Spec.dynamic_token_w8a8_eligible, _is_dynamic_token_w8a8.
  destruct w as [wq|], i as [iq|]; cbn;
    try (split; [discriminate|intros H; spec_solve]).
  split_quant wq; split_quant iq.
  destruct (Z.eqb_spec nb nb0), (Z.eqb_spec nb0 8); subst; cbn;
    try (split; [discriminate|intros H; spec_solve]).
  destruct sy, dy, st, dy0, st0; cbn;
    (split; [intros H;
             first [discriminate H|do 2 eexists; cbn; intuition eauto]
            |intros H; spec_solve]).
Qed.

(** *** The logging monad *)

Lemma lbind_lift_Return {A B : Type} (a : A) (k : A -> Logged B) :
  lbind (lift (Return a)) k = k a.
Proof.
  unfold lbind, lift. now destruct (k a).
Qed.


(** *** Global names and the capability gate *)

Section Facts.

Variable rt : Runtime.
Variable self : CompressedTensorsConfig.

Lemma global_class_W8A8Fp8 :
  global_class rt cls_CompressedTensorsW8A8Fp8 = Return tt.
Proof. reflexivity. Qed.

Lemma global_class_W8A16Fp8 :
  global_class rt cls_CompressedTensorsW8A16Fp8 = Return tt.
Proof. reflexivity. Qed.

Lemma global_class_WNA16 :
  VLLM_AVAILABLE rt = true ->
  global_class rt cls_CompressedTensorsWNA16 = Return tt.
Proof.
  intros V. unfold global_class, global, is_bound. now rewrite V.
Qed.

Lemma global_bits_WNA16 :
  VLLM_AVAILABLE rt = true ->
  global_bits rt "WNA16_SUPPORTED_BITS" = Return (WNA16_SUPPORTED_BITS rt).
Proof.
  intros V. unfold global_bits, global, is_bound. now rewrite V.
Qed.

(** The module never binds the names [CompressedTensors24],
    [CompressedTensorsW8A8Int8], [CompressedTensorsW4A16Sparse24] and
    [W4A16SPARSE24_SUPPORTED_BITS]. *)
Lemma global_class_24 :
  global_class rt cls_CompressedTensors24
  = Raise (NameError "CompressedTensors24").
Proof.
  unfold global_class, global, is_bound. now destruct (VLLM_AVAILABLE rt).
Qed.

Lemma global_class_W8A8Int8 :
  global_class rt cls_CompressedTensorsW8A8Int8
  = Raise (NameError "CompressedTensorsW8A8Int8").
Proof.
  unfold global_class, global, is_bound. now destruct (VLLM_AVAILABLE rt).
Qed.

Lemma global_class_W4A16Sparse24 :
  global_class rt cls_CompressedTensorsW4A16Sparse24
  = Raise (NameError "CompressedTensorsW4A16Sparse24").
Proof.
  unfold global_class, global, is_bound. now destruct (VLLM_AVAILABLE rt).
Qed.

Lemma global_bits_W4A16SPARSE24 :
  global_bits rt "W4A16SPARSE24_SUPPORTED_BITS"
  = Raise (NameError "W4A16SPARSE24_SUPPORTED_BITS").
Proof.
  unfold global_bits, global, is_bound. now destruct (VLLM_AVAILABLE rt).
Qed.

Lemma to_int_Return (cap : DeviceCapability) (c : Z) :
  to_int cap = Return c
  <-> (0 <= minor cap < 10 /\ c = major cap * 10 + minor cap).
Proof.
  unfold to_int, assert.
  destruct (Z.leb_spec 0 (minor cap)) as [Hlo|Hlo],
           (Z.ltb_spec (minor cap) 10) as [Hhi|Hhi]; cbn;
    split; intros E; try discriminate; try lia.
  - injection E as <-. lia.
  - destruct E as [_ ->]. reflexivity.
Qed.

Lemma check_advisory (min_capability c : Z) :
  to_int (device_capability rt) = Return c ->
  _check_scheme_supported rt min_capability false
  = Return (min_capability <=? c).
Proof.
  intros H. unfold _check_scheme_supported. now rewrite H.
Qed.

Lemma check_fatal (min_capability c : Z) :
  to_int (device_capability rt) = Return c ->
  _check_scheme_supported rt min_capability true
  = if min_capability <=? c then Return true
    else Raise (RuntimeError min_capability c).
Proof.
  intros H. unfold _check_scheme_supported. rewrite H. cbn.
  now destruct (min_capability <=? c).
Qed.

(** The fatal gate returns only [True], and only on a device that meets
    the minimum. *)
Lemma check_fatal_Return (min_capability : Z) (b : bool) :
  _check_scheme_supported rt min_capability true = Return b ->
  b = true
  /\ 0 <= minor (device_capability rt) < 10
  /\ min_capability
     <= major (device_capability rt) * 10 + minor (device_capability rt).
Proof.
  destruct (to_int (device_capability rt)) as [c|e] eqn:E.
  - rewrite (check_fatal _ _ E). apply to_int_Return in E as [Hm ->].
    destruct (Z.leb_spec min_capability
                (major (device_capability rt) * 10
                 + minor (device_capability rt)));
      [intros [= <-]; auto | discriminate].
  - unfold _check_scheme_supported. rewrite E. discriminate.
Qed.

(** With an input quantization present the weight-only branch is skipped. *)
Lemma _is_wNa16_group_channel_quantized_input (wq iq : QuantizationArgs) :
  _is_wNa16_group_channel (Some wq) (Some iq) = Return false.
Proof.
  unfold _is_wNa16_group_channel. cbn.
  now rewrite andb_false_r.
Qed.

Lemma _get_scheme_from_parts_quantized_input (wq iq : QuantizationArgs) :
  _get_scheme_from_parts rt self (Some wq) (Some iq)
  = activation_quantization_schemes rt self (Some wq) (Some iq).
Proof.
  unfold _get_scheme_from_parts.
  now rewrite _is_wNa16_group_channel_quantized_input.
Qed.

(** The gate after a scheme was chosen. *)
Lemma check_and_return_Return
  (s : Scheme) (layer_name : option string) (l : list LogCall)
  (r : option Scheme) :
  check_and_return rt s layer_name = (l, Return r) ->
  r = Some s
  /\ l = [debug "Using scheme: %s for %s" (class_name (class_of s)) layer_name]
  /\ 0 <= minor (device_capability rt) < 10
  /\ get_min_capability rt (class_of s)
     <= major (device_capability rt) * 10 + minor (device_capability rt).
Proof.
  unfold check_and_return, lbind, lift, emit.
  destruct (_check_scheme_supported rt _ true) as [b|e] eqn:E;
    [|discriminate].
  apply check_fatal_Return in E as (_ & Hm & Hc).
  cbn. intros [= <- <-]. auto.
Qed.


End Facts.

(** *** FP8 weight and activation quantization *)

(** C2, amended.  [_is_fp8_w8a8] returns [True] exactly when both arguments
    are present and float-typed, the weight is symmetric, static and of
    strategy TENSOR or CHANNEL, and the input is dynamic or symmetric with
    strategy TENSOR.  For such a pair, when the format is an
    activation-quantizing one and the device capability is at least the
    minimum of the FP8 w8a8 scheme, [_get_scheme_from_parts] returns that
    scheme on the weight's strategy, with the static-input flag set iff the
    input is not dynamic. *)
Theorem fp8_w8a8_selected
  (rt : Runtime) (self : CompressedTensorsConfig)
  (w i : option QuantizationArgs) :
  (_is_fp8_w8a8 w i = true <-> Spec.fp8_w8a8_eligible w i)
  /\ (forall c : Z,
        _is_fp8_w8a8 w i = true ->
        is_activation_quantization_format rt (quant_format self) = true ->
        to_int (device_capability rt) = Return c ->
        get_min_capability rt cls_CompressedTensorsW8A8Fp8 <= c ->
        exists wq iq,
          w = Some wq /\ i = Some iq
          /\ _get_scheme_from_parts rt self w i
             = Return (CompressedTensorsW8A8Fp8 (strategy wq)
                         (Some (negb (dynamic iq))))).
Proof.
  split; [apply _is_fp8_w8a8_true_iff|].
  intros c H Hact Hc Hmin.
  destruct (proj1 (_is_fp8_w8a8_true_iff w i) H) as (wq & iq & -> & -> & _).
  exists wq, iq. repeat split.
  rewrite _get_scheme_from_parts_quantized_input.
  unfold activation_quantization_schemes.
  rewrite Hact, H, global_class_W8A8Fp8. cbn [bind].
  rewrite (check_advisory _ _ _ Hc).
  destruct (Z.leb_spec (get_min_capability rt cls_CompressedTensorsW8A8Fp8) c);
    [reflexivity|lia].
Qed.

Lemma fp8_w8a8_selected_witness :
  exists wq iq,
    Some (Example.fp8_tensor false) = Some wq
    /\ Some (Example.fp8_tensor true) = Some iq
    /\ _get_scheme_from_parts (Example.runtime true (8, 9))
         (Example.config_of CompressionFormat.float_quantized None None)
         (Some (Example.fp8_tensor false)) (Some (Example.fp8_tensor true))
       = Return (CompressedTensorsW8A8Fp8 (strategy wq)
                   (Some (negb (dynamic iq)))).
Proof.
  apply (proj2 (fp8_w8a8_selected (Example.runtime true (8, 9))
                  (Example.config_of CompressionFormat.float_quantized
                     None None)
                  (Some (Example.fp8_tensor false))
                  (Some (Example.fp8_tensor true))) 89);
    [reflexivity|reflexivity|reflexivity|cbn; lia].
Defined.

(** C2 as stated fails: on a device of capability 80, below the 89 the
    FP8 w8a8 scheme asks for, an eligible pair gets the FP8 w8a16 scheme;
    and under a format that does not quantize activations it gets no
    scheme at all, whatever the device. *)
Lemma fp8_w8a8_not_always_selected :
  _is_fp8_w8a8 (Some (Example.fp8_tensor false))
               (Some (Example.fp8_tensor false)) = true
  /\ _get_scheme_from_parts (Example.runtime true (8, 0))
       (Example.config_of CompressionFormat.float_quantized None None)
       (Some (Example.fp8_tensor false)) (Some (Example.fp8_tensor false))
     = Return (CompressedTensorsW8A16Fp8 TENSOR (Some true))
  /\ _get_scheme_from_parts (Example.runtime true (8, 9))
       (Example.config_of CompressionFormat.dense None None)
       (Some (Example.fp8_tensor false)) (Some (Example.fp8_tensor false))
     = Raise (NotImplementedError
                "No compressed-tensors compatible scheme was found.")
  /\ ~ (forall rt self w i,
          _is_fp8_w8a8 w i = true ->
          exists st flag,
            _get_scheme_from_parts rt self w i
            = Return (CompressedTensorsW8A8Fp8 st flag)).
Proof.
  split; [reflexivity|]. split; [reflexivity|]. split; [reflexivity|].
  intros H.
  destruct (H (Example.runtime true (8, 0))
              (Example.config_of CompressionFormat.float_quantized None None)
              (Some (Example.fp8_tensor false))
              (Some (Example.fp8_tensor false)) eq_refl) as (st & flag & E).
  discriminate E.
Qed.




(** *** Weight-only quantization *)


(** C4, amended.  With a weight quantization, no input quantization and a
    sparsity scheme of structure 2:4, [supports_cutlass_24] returns
    [False]: the 2:4-sparse scheme is not selected, and the decision is
    the one [_get_scheme_from_parts] takes on the weight alone, followed by
    the capability gate. *)
Theorem weight_only_24_falls_through
  (rt : Runtime) (self : CompressedTensorsConfig)
  (wq : QuantizationArgs) (sp : SparsityCompressionConfig)
  (layer_name : option string) :
  sparsity_structure sp = Some SparsityStructure.TWO_FOUR ->
  supports_cutlass_24 (Some wq) None (Some sp) = Return false
  /\ select_scheme rt self (Some wq) None (Some sp) layer_name
     = lbind (lift (_get_scheme_from_parts rt self (Some wq) None))
             (fun scheme => check_and_return rt scheme layer_name).
Proof.
  intros _.
  assert (E : supports_cutlass_24 (Some wq) None (Some sp) = Return false).
  { unfold supports_cutlass_24. cbn [is_None negb andb].
    destruct (negb _); reflexivity. }
  split; [exact E|].
  unfold select_scheme. rewrite E, lbind_lift_Return. reflexivity.
Qed.

Lemma weight_only_24_falls_through_witness :
  supports_cutlass_24 (Some Example.int4_group) None
    (Some (Example.sparse_24 CompressionFormat.dense)) = Return false
  /\ select_scheme (Example.runtime true (8, 0))
       (Example.config_of CompressionFormat.pack_quantized None None)
       (Some Example.int4_group) None
       (Some (Example.sparse_24 CompressionFormat.dense)) (Some "q_proj")
     = lbind (lift (_get_scheme_from_parts (Example.runtime true (8, 0))
                      (Example.config_of CompressionFormat.pack_quantized
                         None None)
                      (Some Example.int4_group) None))
             (fun scheme =>
                check_and_return (Example.runtime true (8, 0)) scheme
                  (Some "q_proj")).
Proof.
  apply (weight_only_24_falls_through (Example.runtime true (8, 0))
           (Example.config_of CompressionFormat.pack_quantized None None)
           Example.int4_group (Example.sparse_24 CompressionFormat.dense)
           (Some "q_proj")).
  reflexivity.
Defined.

(** C4 as stated fails: a 4-bit grouped weight in the pack-quantized
    format, with no input quantization and a 2:4 sparsity scheme, is given
    the weight-only scheme; nothing is raised. *)
Lemma weight_only_24_does_not_raise :
  select_scheme (Example.runtime true (8, 0))
    (Example.config_of CompressionFormat.pack_quantized None None)
    (Some Example.int4_group) None
    (Some (Example.sparse_24 CompressionFormat.dense)) (Some "q_proj")
  = ([debug "Using scheme: %s for %s" "CompressedTensorsWNA16"
        (Some "q_proj")],
     Return (Some (CompressedTensorsWNA16 4 GROUP (Some 128) None)))
  /\ ~ (forall rt self wq sp layer_name,
          sparsity_structure sp = Some SparsityStructure.TWO_FOUR ->
          Spec.raises (select_scheme rt self (Some wq) None (Some sp) layer_name)).
Proof.
  split; [reflexivity|].
  intros H.
  destruct (H (Example.runtime true (8, 0))
              (Example.config_of CompressionFormat.pack_quantized None None)
              Example.int4_group (Example.sparse_24 CompressionFormat.dense)
              (Some "q_proj") eq_refl) as [e E].
  discriminate E.
Qed.

Lemma mem_int_In (x : Z) (l : list Z) : In x l -> mem_int x l = true.
Proof.
  intros H. unfold mem_int. apply existsb_exists.
  exists x. split; [exact H|apply Z.eqb_refl].
Qed.

(** C6, amended.  For a weight quantization with strategy GROUP, symmetric
    and static, and no input quantization: when vllm is available, the
    format is pack-quantized and the bit width is one of
    WNA16_SUPPORTED_BITS, [_get_scheme_from_parts] returns the weight-only
    N-bit scheme with the weight's bit width, strategy, group size and
    activation ordering. *)
Theorem group_weight_only_selected
  (rt : Runtime) (self : CompressedTensorsConfig) (wq : QuantizationArgs) :
  strategy wq = GROUP ->
  symmetric wq = true ->
  dynamic wq = false ->
  VLLM_AVAILABLE rt = true ->
  quant_format self = CompressionFormat.pack_quantized ->
  In (num_bits wq) (WNA16_SUPPORTED_BITS rt) ->
  _get_scheme_from_parts rt self (Some wq) None
  = Return (CompressedTensorsWNA16 (num_bits wq) GROUP (group_size wq)
              (actorder wq)).
Proof.
  intros Hst Hsy Hdy V Hf Hb.
  unfold _get_scheme_from_parts, _is_wNa16_group_channel.
  cbn [deref bind is_None]. rewrite Hst, Hsy, Hdy, V, Hf. cbn.
  rewrite (global_bits_WNA16 _ V). cbn [bind].
  rewrite (mem_int_In _ _ Hb), (global_class_WNA16 _ V).
  reflexivity.
Qed.

Lemma group_weight_only_selected_witness :
  _get_scheme_from_parts (Example.runtime true (8, 0))
    (Example.config_of CompressionFormat.pack_quantized None None)
    (Some Example.int4_group) None
  = Return (CompressedTensorsWNA16 (num_bits Example.int4_group) GROUP
              (group_size Example.int4_group) (actorder Example.int4_group)).
Proof.
  apply (group_weight_only_selected (Example.runtime true (8, 0))
           (Example.config_of CompressionFormat.pack_quantized None None)
           Example.int4_group);
    [reflexivity|reflexivity|reflexivity|reflexivity|reflexivity
    |cbn; auto].
Defined.


(** C6 as stated fails: the same grouped weight finds no scheme when its
    bit width is outside WNA16_SUPPORTED_BITS or when the format is not
    pack-quantized, and without vllm the branch raises [ImportError]. *)
Lemma group_weight_only_not_always_selected :
  _get_scheme_from_parts (Example.runtime true (8, 0))
    (Example.config_of CompressionFormat.pack_quantized None None)
    (Some {| num_bits := 3; type := INT; strategy := GROUP;
             symmetric := true; dynamic := false;
             group_size := Some 128; actorder := None |}) None
  = Raise (NotImplementedError
             "No compressed-tensors compatible scheme was found.")
  /\ _get_scheme_from_parts (Example.runtime true (8, 0))
       (Example.config_of CompressionFormat.dense None None)
       (Some Example.int4_group) None
     = Raise (NotImplementedError
                "No compressed-tensors compatible scheme was found.")
  /\ _get_scheme_from_parts (Example.runtime false (8, 0))
       (Example.config_of CompressionFormat.pack_quantized None None)
       (Some Example.int4_group) None
     = Raise (ImportError
                "vllm is not installed, to use CompressedTensorsW4A16Sparse24 and CompressedTensorsWNA16, please install vllm")
  /\ ~ (forall rt self wq,
          strategy wq = GROUP -> symmetric wq = true -> dynamic wq = false ->
          exists s,
            _get_scheme_from_parts rt self (Some wq) None = Return s
            /\ Spec.weight_only_with_group_size s (group_size wq)).
Proof.
  split; [reflexivity|]. split; [reflexivity|]. split; [reflexivity|].
  intros H.
  destruct (H (Example.runtime false (8, 0))
              (Example.config_of CompressionFormat.pack_quantized None None)
              Example.int4_group eq_refl eq_refl eq_refl) as (s & E & _).
  discriminate E.
Qed.

(** Under the marlin-24 format the weight-only branch reads
    [W4A16SPARSE24_SUPPORTED_BITS], a name the module does not bind. *)
Lemma marlin_24_branch
  (rt : Runtime) (self : CompressedTensorsConfig) (wq : QuantizationArgs) :
  _is_wNa16_group_channel (Some wq) None = Return true ->
  VLLM_AVAILABLE rt = true ->
  quant_format self = CompressionFormat.marlin_24 ->
  _get_scheme_from_parts rt self (Some wq) None
  = Raise (NameError "W4A16SPARSE24_SUPPORTED_BITS").
Proof.
  intros H V Hf. unfold _get_scheme_from_parts.
  rewrite H. cbn [bind deref]. rewrite V, Hf. cbn [negb String.eqb].
  change (CompressionFormat.marlin_24 =? CompressionFormat.marlin_24)%string
    with true.
  cbn iota. now rewrite global_bits_W4A16SPARSE24.
Qed.

(** *** Schemes whose class name the module does not bind *)

(** Whenever [supports_cutlass_24] returns [True], the decision ends in an
    exception before any scheme is built: [ImportError] without vllm, and
    [NameError] with it, since the module imports no [CompressedTensors24]. *)
Lemma select_scheme_cutlass_24
  (rt : Runtime) (self : CompressedTensorsConfig)
  (w i : option QuantizationArgs) (s : option SparsityCompressionConfig)
  (layer_name : option string) :
  supports_cutlass_24 w i s = Return true ->
  select_scheme rt self w i s layer_name
  = ([], if VLLM_AVAILABLE rt
         then Raise (NameError "CompressedTensors24")
         else Raise (ImportError
                       "vllm is not installed, to use CompressedTensors24, please install vllm")).
Proof.
  intros E. unfold select_scheme. rewrite E, lbind_lift_Return.
  destruct (VLLM_AVAILABLE rt); cbn [negb]; [|reflexivity].
  now rewrite global_class_24.
Qed.

(** A dynamic per-token pair is not static per-tensor. *)
Lemma dynamic_token_not_static (w i : option QuantizationArgs) :
  _is_dynamic_token_w8a8 w i = Return true ->
  _is_static_tensor_w8a8 w i = Return false.
Proof.
  intros H. apply _is_dynamic_token_w8a8_true_iff in H.
  destruct H as (wq & iq & -> & -> & _ & _ & _ & Hst & _ & _ & Hdy).
  unfold _is_static_tensor_w8a8. cbn. rewrite Hst, Hdy. cbn.
  now rewrite !andb_false_r.
Qed.

(** For a dynamic per-token pair that reaches its branch, the classifier
    ends in [NameError]: the module imports no [CompressedTensorsW8A8Int8]. *)
Lemma dynamic_token_w8a8_branch
  (rt : Runtime) (self : CompressedTensorsConfig)
  (w i : option QuantizationArgs) :
  _is_dynamic_token_w8a8 w i = Return true ->
  is_activation_quantization_format rt (quant_format self) = true ->
  _is_fp8_w8a8 w i = false ->
  _is_fp8_w8a16 w i = false ->
  _get_scheme_from_parts rt self w i
  = Raise (NameError "CompressedTensorsW8A8Int8").
Proof.
  intros H Hact H1 H2.
  pose proof (dynamic_token_not_static _ _ H) as Hs.
  destruct (proj1 (_is_dynamic_token_w8a8_true_iff w i) H)
    as (wq & iq & -> & -> & _).
  rewrite _get_scheme_from_parts_quantized_input.
  unfold activation_quantization_schemes.
  rewrite Hact, H1, H2, Hs. cbn [bind]. rewrite H. cbn [bind].
  now rewrite global_class_W8A8Int8.
Qed.

(** C1, at the inputs where the code departs from it: a purely sparse
    layer and an 8-bit quantized one, both with a dense 2:4 sparsity
    scheme, are eligible for the 2:4 kernel, and [get_scheme] builds no
    scheme for either: with vllm installed and on a device of capability
    90 it raises [NameError] on the name [CompressedTensors24]. *)
Theorem cutlass_24_scheme_not_built :
  supports_cutlass_24 None None
    (Some (Example.sparse_24 CompressionFormat.dense)) = Return true
  /\ get_scheme (Example.runtime true (9, 0))
       (Example.config_of CompressionFormat.dense None
          (Some (Example.sparse_24 CompressionFormat.dense)))
       Example.linear (Some "model.layers.0.mlp.down_proj")
     = ([], Raise (NameError "CompressedTensors24"))
  /\ supports_cutlass_24 (Some Example.int8_tensor)
       (Some Example.int8_token_dynamic)
       (Some (Example.sparse_24 CompressionFormat.dense)) = Return true
  /\ get_scheme (Example.runtime true (9, 0))
       (Example.config_of CompressionFormat.int_quantized
          (Example.both Example.int8_tensor Example.int8_token_dynamic)
          (Some (Example.sparse_24 CompressionFormat.dense)))
       Example.linear (Some "model.layers.0.mlp.down_proj")
     = ([], Raise (NameError "CompressedTensors24")).
Proof.
  repeat split; reflexivity.
Qed.

(** C5, at the input where the code departs from it: an INT8 pair with a
    static per-tensor weight and a dynamic per-token input satisfies
    [_is_dynamic_token_w8a8] and no earlier branch under the int-quantized
    format, and the classifier raises [NameError] on the name
    [CompressedTensorsW8A8Int8] instead of returning the INT8 scheme. *)
Theorem dynamic_token_w8a8_scheme_not_built :
  _is_dynamic_token_w8a8 (Some Example.int8_tensor)
    (Some Example.int8_token_dynamic) = Return true
  /\ _is_wNa16_group_channel (Some Example.int8_tensor)
       (Some Example.int8_token_dynamic) = Return false
  /\ Example.activation_quantizing CompressionFormat.int_quantized = true
  /\ _is_fp8_w8a8 (Some Example.int8_tensor)
       (Some Example.int8_token_dynamic) = false
  /\ _is_fp8_w8a16 (Some Example.int8_tensor)
       (Some Example.int8_token_dynamic) = false
  /\ _is_static_tensor_w8a8 (Some Example.int8_tensor)
       (Some Example.int8_token_dynamic) = Return false
  /\ _get_scheme_from_parts (Example.runtime true (8, 0))
       (Example.config_of CompressionFormat.int_quantized None None)
       (Some Example.int8_tensor) (Some Example.int8_token_dynamic)
     = Raise (NameError "CompressedTensorsW8A8Int8").
Proof.
  repeat split; reflexivity.
Qed.

(** C8, at the input where the code departs from it: a linear layer with
    no quantization and a dense 2:4 sparsity scheme takes the 2:4 branch,
    ahead of the unquantized fallback, and [get_quant_method] ends in
    [NameError] on the name [CompressedTensors24]: the layer receives no
    scheme. *)
Theorem purely_sparse_layer_gets_no_scheme :
  supports_cutlass_24 None None
    (Some (Example.sparse_24 CompressionFormat.dense)) = Return true
  /\ get_quant_method (Example.runtime true (9, 0))
       (Example.config_of CompressionFormat.dense None
          (Some (Example.sparse_24 CompressionFormat.dense)))
       Example.linear "model.layers.0.mlp.down_proj"
     = ([], Raise (NameError "CompressedTensors24")).
Proof.
  repeat split; reflexivity.
Qed.

(** *** The capability gate of [get_scheme] *)

Lemma lbind_Return {A B : Type}
  (m : Logged A) (k : A -> Logged B) (l : list LogCall) (r : B) :
  lbind m k = (l, Return r) ->
  exists l1 a l2, m = (l1, Return a) /\ k a = (l2, Return r) /\ l = l1 ++ l2.
Proof.
  destruct m as [l1 [a|e]]; cbn; [|discriminate].
  destruct (k a) as [l2 r'] eqn:E. intros [= <- ->].
  now exists l1, a, l2.
Qed.

Lemma select_scheme_Some
  (rt : Runtime) (self : CompressedTensorsConfig)
  (w i : option QuantizationArgs) (sp : option SparsityCompressionConfig)
  (layer_name : option string) (l : list LogCall) (s : Scheme) :
  select_scheme rt self w i sp layer_name = (l, Return (Some s)) ->
  0 <= minor (device_capability rt) < 10
  /\ get_min_capability rt (class_of s)
     <= major (device_capability rt) * 10 + minor (device_capability rt).
Proof.
  unfold select_scheme. intros H.
  apply lbind_Return in H as (l1 & b & l2 & _ & H & _).
  destruct b.
  - destruct (VLLM_AVAILABLE rt); cbn [negb] in H; [|discriminate].
    rewrite global_class_24 in H. discriminate.
  - destruct w as [wq|].
    + apply lbind_Return in H as (l3 & s' & l4 & _ & H & _).
      apply check_and_return_Return in H as (E & _ & Hm & Hc).
      injection E as ->. auto.
    + discriminate.
Qed.

(** C9.  Whenever [get_scheme] returns a scheme, the minor version of the
    device is a single digit and the scheme's minimum capability is at
    most major*10+minor.  The fatal gate returns [True] when the minimum
    is met and raises [RuntimeError] with the required and the actual
    value otherwise: a minimum of 89 fails on device (8,0), capability 80,
    and passes on device (8,9), capability 89. *)
Theorem get_scheme_capability_satisfied
  (rt : Runtime) (self : CompressedTensorsConfig)
  (layer : Layer) (layer_name : option string) :
  (forall l s,
      get_scheme rt self layer layer_name = (l, Return (Some s)) ->
      to_int (device_capability rt)
      = Return (fst (get_device_capability rt) * 10
                + snd (get_device_capability rt))
      /\ get_min_capability rt (class_of s)
         <= fst (get_device_capability rt) * 10
            + snd (get_device_capability rt))
  /\ (forall min_capability c,
        to_int (device_capability rt) = Return c ->
        _check_scheme_supported rt min_capability true
        = if min_capability <=? c then Return true
          else Raise (RuntimeError min_capability c))
  /\ (get_device_capability rt = (8, 0) ->
      _check_scheme_supported rt 89 true = Raise (RuntimeError 89 80))
  /\ (get_device_capability rt = (8, 9) ->
      _check_scheme_supported rt 89 true = Return true).
Proof.
  split; [|split; [|split]].
  - intros l s H. unfold get_scheme in H.
    apply lbind_Return in H as (l1 & q & l2 & _ & H & _).
    apply lbind_Return in H as (l3 & sp & l4 & _ & H & _).
    apply select_scheme_Some in H as [Hm Hc].
    split; [|exact Hc].
    apply to_int_Return. auto.
  - intros m c. apply check_fatal.
  - intros E. unfold _check_scheme_supported, device_capability.
    now rewrite E.
  - intros E. unfold _check_scheme_supported, device_capability.
    now rewrite E.
Qed.

Lemma get_scheme_capability_satisfied_witness :
  (to_int (device_capability (Example.runtime true (8, 9))) = Return 89
   /\ get_min_capability (Example.runtime true (8, 9))
        (class_of (CompressedTensorsW8A8Fp8 TENSOR (Some true))) <= 89)
  /\ _check_scheme_supported (Example.runtime true (8, 0)) 89 true
     = Raise (RuntimeError 89 80)
  /\ _check_scheme_supported (Example.runtime true (8, 9)) 89 true
     = Return true.
Proof.
  split; [|split].
  - apply (proj1 (get_scheme_capability_satisfied
                    (Example.runtime true (8, 9))
                    (Example.config_of CompressionFormat.float_quantized
                       (Example.both (Example.fp8_tensor false)
                                     (Example.fp8_tensor false)) None)
                    Example.linear (Some "model.layers.0.mlp.down_proj"))
             [debug "Using scheme: %s for %s" "CompressedTensorsW8A8Fp8"
                (Some "model.layers.0.mlp.down_proj")]
             (CompressedTensorsW8A8Fp8 TENSOR (Some true))).
    reflexivity.
  - apply (proj1 (proj2 (proj2 (get_scheme_capability_satisfied
                                  (Example.runtime true (8, 0))
                                  (Example.config_of
                                     CompressionFormat.float_quantized
                                     None None)
                                  Example.linear None)))).
    reflexivity.
  - apply (proj2 (proj2 (proj2 (get_scheme_capability_satisfied
                                  (Example.runtime true (8, 9))
                                  (Example.config_of
                                     CompressionFormat.float_quantized
                                     None None)
                                  Example.linear None)))).
    reflexivity.
Defined.

(** *** The assertion of [supports_cutlass_24] *)


(** C10.  On an absent weight quantization, a present input quantization
    and a sparsity scheme of structure 2:4 and format dense or
    sparse_24_bitmask, [supports_cutlass_24] fails its assertion
    [weight_quant is not None]; on every other input it returns a
    boolean. *)
Theorem supports_cutlass_24_assertion
  (w i : option QuantizationArgs) (s : option SparsityCompressionConfig) :
  (supports_cutlass_24 w i s = Raise AssertionError <-> Spec.input_only_24 w i s)
  /\ ((exists b, supports_cutlass_24 w i s = Return b)
      <-> ~ Spec.input_only_24 w i s).
Proof.
  unfold Spec.input_only_24, supports_cutlass_24.
  destruct s as [sp|].
  - destruct (_ && _) eqn:V; cbn [negb].
    + apply valid_24_sparsity_dec in V.
      destruct w as [wq|], i as [iq|]; cbn.
      * split; split.
        -- repeat destruct (negb _); discriminate.
        -- intros [H _]; discriminate.
        -- intros _ [H _]; discriminate.
        -- intros _. repeat destruct (negb _); eauto.
      * split; split; try discriminate; eauto.
        -- intros [H _]; discriminate.
        -- intros _ [H _]; discriminate.
      * split; split; auto.
        -- intros _. repeat split; auto. discriminate.
        -- intros [b H]; discriminate.
        -- intros H. exfalso. apply H. repeat split; auto. discriminate.
      * split; split; try discriminate; eauto.
        -- intros (_ & H & _). congruence.
        -- intros _ (_ & H & _). congruence.
    + apply valid_24_sparsity_false in V.
      split; split; try discriminate; eauto.
      * intros (_ & _ & H). contradiction.
      * intros _ (_ & _ & H). contradiction.
  - split; split; try discriminate; eauto.
    + intros (_ & _ & sp & E & _). discriminate.
    + intros _ (_ & _ & sp & E & _). discriminate.
Qed.

Lemma supports_cutlass_24_assertion_witness :
  Spec.input_only_24 None (Some Example.int8_token_dynamic)
    (Some (Example.sparse_24 CompressionFormat.sparse_24_bitmask))
  /\ supports_cutlass_24 None (Some Example.int8_token_dynamic)
       (Some (Example.sparse_24 CompressionFormat.sparse_24_bitmask))
     = Raise AssertionError.
Proof.
  assert (H : Spec.input_only_24 None (Some Example.int8_token_dynamic)
                (Some (Example.sparse_24 CompressionFormat.sparse_24_bitmask))).
  { split; [reflexivity|]. split; [discriminate|].
    exists (Example.sparse_24 CompressionFormat.sparse_24_bitmask).
    split; [reflexivity|]. split; [reflexivity|]. right. reflexivity. }
  split; [exact H|].
  apply (proj2 (proj1 (supports_cutlass_24_assertion None
                         (Some Example.int8_token_dynamic)
                         (Some (Example.sparse_24
                                  CompressionFormat.sparse_24_bitmask))))).
  exact H.
Defined.

(** *** [get_cache_scale] *)

Section CacheScale.

Local Open Scope string_scope.

Lemma contains_cons (sub : string) (c : ascii) (s : string) :
  contains sub (String c s) = startswith (String c s) sub || contains sub s.
Proof. cbn [contains]. now destruct (startswith (String c s) sub). Qed.

Lemma endswith_app (p s suffix : string) :
  endswith s suffix = true -> endswith (p ++ s) suffix = true.
Proof.
  intros H. induction p as [|c p IH]; [exact H|].
  cbn [append endswith]. now destruct (String.eqb _ _).
Qed.

Lemma contains_app (sub p s : string) :
  contains sub s = true -> contains sub (p ++ s) = true.
Proof.
  intros H. induction p as [|c p IH]; [exact H|].
  cbn [append]. rewrite contains_cons, IH. apply orb_true_r.
Qed.

(** One step of a prefix test against a literal: either the characters
    differ, or the string's first character is the literal's. *)
Ltac peel H :=
  cbn [startswith append] in H;
  first [ discriminate H
        | let E := fresh "E" in
          apply andb_true_iff in H; destruct H as [E H];
          apply Ascii.eqb_eq in E; first [discriminate E | subst] ].

(** An occurrence of the marker that starts before the appended suffix
    starts with the projection marker itself. *)
Lemma k_proj_no_overlap (q : string) :
  startswith (q ++ ".k_proj.output_scale") ".k_proj.output_scale" = true ->
  q = "" \/ startswith q ".k_proj" = true.
Proof.
  intros H.
  destruct q as [|c1 q]; [now left|right].
  do 7 (peel H; try (destruct q as [|? q])).
  all: try reflexivity.
Qed.

Lemma v_proj_no_overlap (q : string) :
  startswith (q ++ ".v_proj.output_scale") ".v_proj.output_scale" = true ->
  q = "" \/ startswith q ".v_proj" = true.
Proof.
  intros H.
  destruct q as [|c1 q]; [now left|right].
  do 7 (peel H; try (destruct q as [|? q])).
  all: try reflexivity.
Qed.

Lemma k_proj_not_in_v_suffix (q : string) :
  startswith (q ++ ".v_proj.output_scale") ".k_proj" = true ->
  startswith q ".k_proj" = true.
Proof.
  intros H.
  destruct q as [|c1 q]; [discriminate H|].
  do 7 (peel H; try (destruct q as [|? q])).
  all: try reflexivity.
Qed.

Lemma replace_k_proj (p : string) :
  contains ".k_proj" p = false ->
  replace (p ++ ".k_proj.output_scale") ".k_proj.output_scale" ".attn.k_scale"
  = p ++ ".attn.k_scale".
Proof.
  unfold replace. induction p as [|c p IH]; intros H; [reflexivity|].
  rewrite contains_cons in H. apply orb_false_iff in H as [H1 H2].
  change (String c p ++ ".k_proj.output_scale")
    with (String c (p ++ ".k_proj.output_scale")).
  cbn [replace_from].
  destruct (startswith (String c (p ++ ".k_proj.output_scale"))
              ".k_proj.output_scale") eqn:E.
  - apply (k_proj_no_overlap (String c p)) in E as [E|E];
      [discriminate|congruence].
  - cbn [append]. f_equal. apply IH, H2.
Qed.

Lemma replace_v_proj (p : string) :
  contains ".v_proj" p = false ->
  replace (p ++ ".v_proj.output_scale") ".v_proj.output_scale" ".attn.v_scale"
  = p ++ ".attn.v_scale".
Proof.
  unfold replace. induction p as [|c p IH]; intros H; [reflexivity|].
  rewrite contains_cons in H. apply orb_false_iff in H as [H1 H2].
  change (String c p ++ ".v_proj.output_scale")
    with (String c (p ++ ".v_proj.output_scale")).
  cbn [replace_from].
  destruct (startswith (String c (p ++ ".v_proj.output_scale"))
              ".v_proj.output_scale") eqn:E.
  - apply (v_proj_no_overlap (String c p)) in E as [E|E];
      [discriminate|congruence].
  - cbn [append]. f_equal. apply IH, H2.
Qed.

Lemma k_proj_not_in_v_name (p : string) :
  contains ".k_proj" p = false ->
  contains ".k_proj" (p ++ ".v_proj.output_scale") = false.
Proof.
  induction p as [|c p IH]; intros H; [reflexivity|].
  rewrite contains_cons in H. apply orb_false_iff in H as [H1 H2].
  cbn [append]. rewrite contains_cons, (IH H2), orb_false_r.
  destruct (startswith (String c (p ++ ".v_proj.output_scale")) ".k_proj")
    eqn:E; [|reflexivity].
  apply (k_proj_not_in_v_suffix (String c p)) in E. congruence.
Qed.

(** C7.  [get_cache_scale] maps a name ending in [.k_proj.output_scale]
    to the same prefix followed by [.attn.k_scale], and likewise for
    [.v_proj] (the prefix holding no projection marker of its own), and
    returns [None] when the name holds no projection marker; so
    "model.layers.3.self_attn.k_proj.output_scale" is mapped to
    "model.layers.3.self_attn.attn.k_scale" and "x.output_scale" to
    [None]. *)
Theorem get_cache_scale_maps :
  get_cache_scale "model.layers.3.self_attn.k_proj.output_scale"
  = Some "model.layers.3.self_attn.attn.k_scale"
  /\ get_cache_scale "model.layers.3.self_attn.v_proj.output_scale"
     = Some "model.layers.3.self_attn.attn.v_scale"
  /\ get_cache_scale "x.output_scale" = None
  /\ (forall p,
        contains ".k_proj" p = false ->
        get_cache_scale (p ++ ".k_proj.output_scale")
        = Some (p ++ ".attn.k_scale"))
  /\ (forall p,
        contains ".k_proj" p = false -> contains ".v_proj" p = false ->
        get_cache_scale (p ++ ".v_proj.output_scale")
        = Some (p ++ ".attn.v_scale"))
  /\ (forall name,
        contains ".k_proj" name = false -> contains ".v_proj" name = false ->
        get_cache_scale name = None).
Proof.
  repeat split; try reflexivity.
  - intros p H. unfold get_cache_scale.
    rewrite (endswith_app p ".k_proj.output_scale" ".output_scale" eq_refl),
      (contains_app ".k_proj" p ".k_proj.output_scale" eq_refl).
    cbn [andb]. now rewrite replace_k_proj.
  - intros p Hk Hv. unfold get_cache_scale.
    rewrite (endswith_app p ".v_proj.output_scale" ".output_scale" eq_refl),
      (k_proj_not_in_v_name _ Hk),
      (contains_app ".v_proj" p ".v_proj.output_scale" eq_refl).
    cbn [andb]. now rewrite replace_v_proj.
  - intros name Hk Hv. unfold get_cache_scale.
    now rewrite Hk, Hv, !andb_false_r.
Qed.

Lemma get_cache_scale_maps_witness :
  get_cache_scale ("model.layers.3.self_attn" ++ ".k_proj.output_scale")
  = Some ("model.layers.3.self_attn" ++ ".attn.k_scale")
  /\ get_cache_scale ("model.layers.3.self_attn" ++ ".v_proj.output_scale")
     = Some ("model.layers.3.self_attn" ++ ".attn.v_scale")
  /\ get_cache_scale "x.output_scale" = None.
Proof.
  split; [|split].
  - apply (proj1 (proj2 (proj2 (proj2 get_cache_scale_maps)))).
    reflexivity.
  - apply (proj1 (proj2 (proj2 (proj2 (proj2 get_cache_scale_maps)))));
      reflexivity.
  - apply (proj2 (proj2 (proj2 (proj2 (proj2 get_cache_scale_maps)))));
      reflexivity.
Defined.

End CacheScale.

(** *** Further properties of the predicates and of the fallback *)

(** [supports_cutlass_24] returns [True] exactly when the sparsity scheme
    is present with structure 2:4 and format dense or sparse_24_bitmask,
    and either both quantizations are absent or both are present and
    8-bit, with weight strategy TENSOR or CHANNEL and input strategy
    TENSOR or TOKEN. *)
Theorem supports_cutlass_24_eligibility
  (w i : option QuantizationArgs) (s : option SparsityCompressionConfig) :
  supports_cutlass_24 w i s = Return true <-> Spec.cutlass_24_eligible w i s.
Proof. apply supports_cutlass_24_true_iff. Qed.

(** [_is_dynamic_token_w8a8] returns [True] exactly when both sides are
    8-bit, the weight strategy is TENSOR or CHANNEL, the input strategy is
    TOKEN, the weight is symmetric and static and the input is dynamic. *)
Theorem _is_dynamic_token_w8a8_eligibility (w i : option QuantizationArgs) :
  _is_dynamic_token_w8a8 w i = Return true
  <-> Spec.dynamic_token_w8a8_eligible w i.
Proof. apply _is_dynamic_token_w8a8_true_iff. Qed.


(** When the matched weight quantization is [None] and
    [supports_cutlass_24] returns [False], [get_scheme] calls
    [logger.warning_once] and returns [None]; for a linear layer that is
    not ignored [get_quant_method] then returns [UnquantizedLinearMethod]
    and sets no scheme on the layer. *)
Theorem unquantized_fallback
  (rt : Runtime) (self : CompressedTensorsConfig)
  (layer : Layer) (prefix : string)
  (i : option QuantizationArgs) (sp : option SparsityCompressionConfig) :
  matched_quant rt self layer (Some prefix) = Return (None, i) ->
  matched_sparsity rt self layer (Some prefix) = Return sp ->
  supports_cutlass_24 None i sp = Return false ->
  get_scheme rt self layer (Some prefix)
  = ([warning_once Spec.fallback_warning], Return None)
  /\ (should_ignore_layer rt prefix (ignore self) (packed_modules_mapping self)
      = false ->
      is_LinearBase layer = true ->
      get_quant_method rt self layer prefix
      = ([warning_once Spec.fallback_warning],
         Return (Some UnquantizedLinearMethod, layer))).
Proof.
  intros Hq Hs Hc.
  assert (E : get_scheme rt self layer (Some prefix)
              = ([warning_once Spec.fallback_warning], Return None)).
  { unfold get_scheme. rewrite Hq, lbind_lift_Return. cbn [fst snd].
    rewrite Hs, lbind_lift_Return. unfold select_scheme.
    rewrite Hc, lbind_lift_Return. reflexivity. }
  split; [exact E|].
  intros Hi Hl. unfold get_quant_method. now rewrite Hi, Hl, E.
Qed.

Lemma unquantized_fallback_witness :
  get_scheme (Example.runtime true (8, 0))
    (Example.config_of CompressionFormat.int_quantized None None)
    Example.linear (Some "model.layers.0.mlp.down_proj")
  = ([warning_once Spec.fallback_warning], Return None)
  /\ get_quant_method (Example.runtime true (8, 0))
       (Example.config_of CompressionFormat.int_quantized None None)
       Example.linear "model.layers.0.mlp.down_proj"
     = ([warning_once Spec.fallback_warning],
        Return (Some UnquantizedLinearMethod, Example.linear)).
Proof.
  destruct (unquantized_fallback (Example.runtime true (8, 0))
              (Example.config_of CompressionFormat.int_quantized None None)
              Example.linear "model.layers.0.mlp.down_proj" None None
              eq_refl eq_refl eq_refl) as [Hs Hm].
  split; [exact Hs|].
  apply Hm; reflexivity.
Defined.

(* ------------------------------------------------------------------ *)
(** ** Further properties                                              *)
(* ------------------------------------------------------------------ *)

(** *** The remaining predicates *)

Lemma _is_static_tensor_w8a8_true_iff (w i : option QuantizationArgs) :
  _is_static_tensor_w8a8 w i = Return true
  <-> Cond.static_tensor_w8a8_eligible w i.
Proof.
  unfold Cond.static_tensor_w8a8_eligible, _is_static_tensor_w8a8.
  destruct w as [wq|], i as [iq|]; cbn;
    try (split; [discriminate|intros H; spec_solve]).
  split_quant wq; split_quant iq.
  destruct (Z.eqb_spec nb nb0), (Z.eqb_spec nb0 8); subst; cbn;
    try (split; [discriminate|intros H; spec_solve]).
  destruct sy, dy, st, dy0, st0; cbn;
    (split; [intros H;
             first [discriminate H|do 2 eexists; cbn; intuition eauto]
            |intros H; spec_solve]).
Qed.

Lemma _is_fp8_w8a16_true_iff (w i : option QuantizationArgs) :
  _is_fp8_w8a16 w i = true <-> Cond.fp8_w8a16_eligible w.
Proof.
  unfold Cond.fp8_w8a16_eligible, _is_fp8_w8a16.
  destruct w as [wq|]; [|split; [discriminate|intros H; spec_solve]].
  split_quant wq.
  destruct ty, sy, dy, st; cbn;
    (split; [intros H; first [discriminate H|eexists; cbn; intuition eauto]
            |intros H; spec_solve]).
Qed.

Lemma _is_wNa16_group_channel_true_iff (w i : option QuantizationArgs) :
  _is_wNa16_group_channel w i = Return true <-> Cond.wNa16_eligible w i.
Proof.
  unfold Cond.wNa16_eligible, _is_wNa16_group_channel.
  destruct w as [wq|], i as [iq|]; cbn;
    try (split; [discriminate|intros [H1 H]; spec_solve]).
  - split; [|intros [H _]; discriminate].
    rewrite andb_false_r. discriminate.
  - split_quant wq.
    destruct sy, dy, st; cbn;
      (split; [intros H;
               first [discriminate H
                     |split; [reflexivity|eexists; cbn; intuition eauto]]
              |intros [_ H]; spec_solve]).
Qed.

(** The two INT8 predicates return [True] exactly on their eligible pairs,
    raise [AttributeError] exactly when an argument is [None], and never
    both return [True]. *)
Theorem int8_w8a8_predicates (w i : option QuantizationArgs) :
  (_is_static_tensor_w8a8 w i = Return true
   <-> Cond.static_tensor_w8a8_eligible w i)
  /\ (_is_static_tensor_w8a8 w i = Raise AttributeError
      <-> w = None \/ i = None)
  /\ (_is_dynamic_token_w8a8 w i = Raise AttributeError
      <-> w = None \/ i = None)
  /\ ~ (_is_static_tensor_w8a8 w i = Return true
        /\ _is_dynamic_token_w8a8 w i = Return true).
Proof.
  split; [apply _is_static_tensor_w8a8_true_iff|].
  split; [|split].
  - unfold _is_static_tensor_w8a8.
    destruct w, i; cbn; split; intros H; try discriminate; auto;
      destruct H; discriminate.
  - unfold _is_dynamic_token_w8a8.
    destruct w, i; cbn; split; intros H; try discriminate; auto;
      destruct H; discriminate.
  - intros [Hs Hd]. apply dynamic_token_not_static in Hd. congruence.
Qed.

(** [_is_fp8_w8a16] looks at the weight only, and holds whenever
    [_is_fp8_w8a8] does. *)
Theorem fp8_w8a8_implies_fp8_w8a16 (w i i' : option QuantizationArgs) :
  (_is_fp8_w8a16 w i = true <-> Cond.fp8_w8a16_eligible w)
  /\ _is_fp8_w8a16 w i = _is_fp8_w8a16 w i'
  /\ (_is_fp8_w8a8 w i = true -> _is_fp8_w8a16 w i' = true).
Proof.
  split; [apply _is_fp8_w8a16_true_iff|]. split; [reflexivity|].
  intros H. apply _is_fp8_w8a8_true_iff in H.
  destruct H as (wq & iq & -> & _ & Ht & _ & Hs & Hd & Hst & _).
  apply _is_fp8_w8a16_true_iff. exists wq. auto.
Qed.

Lemma fp8_w8a8_implies_fp8_w8a16_witness :
  _is_fp8_w8a16 (Some (Example.fp8_tensor false)) None = true.
Proof.
  apply (proj2 (proj2 (fp8_w8a8_implies_fp8_w8a16
                         (Some (Example.fp8_tensor false))
                         (Some (Example.fp8_tensor true)) None))).
  reflexivity.
Defined.

(** [_is_wNa16_group_channel] returns [True] exactly for a symmetric static
    weight of strategy CHANNEL or GROUP with no input quantization, raises
    [AttributeError] exactly when the weight is [None], and excludes
    [_is_fp8_w8a8]. *)
Theorem wNa16_group_channel_predicate (w i : option QuantizationArgs) :
  (_is_wNa16_group_channel w i = Return true <-> Cond.wNa16_eligible w i)
  /\ (_is_wNa16_group_channel w i = Raise AttributeError <-> w = None)
  /\ (_is_wNa16_group_channel w i = Return true -> _is_fp8_w8a8 w i = false).
Proof.
  split; [apply _is_wNa16_group_channel_true_iff|]. split.
  - unfold _is_wNa16_group_channel.
    destruct w; cbn; split; intros H; try discriminate; auto.
  - intros H. apply _is_wNa16_group_channel_true_iff in H as [-> _].
    now destruct w.
Qed.

Lemma wNa16_group_channel_predicate_witness :
  _is_fp8_w8a8 (Some Example.int4_group) None = false.
Proof.
  apply (proj2 (proj2 (wNa16_group_channel_predicate
                         (Some Example.int4_group) None))).
  reflexivity.
Defined.

(** *** What the classifier returns and raises *)

Section Classifier.

Variable rt : Runtime.
Variable self : CompressedTensorsConfig.

(** What a successful run of the activation branches went through. *)
Lemma activation_quantization_schemes_Return
  (w i : option QuantizationArgs) (s : Scheme) :
  activation_quantization_schemes rt self w i = Return s ->
  is_activation_quantization_format rt (quant_format self) = true
  /\ exists wq,
       w = Some wq
       /\ ((_is_fp8_w8a8 w i = true
            /\ exists c,
                 to_int (device_capability rt) = Return c
                 /\ ((get_min_capability rt cls_CompressedTensorsW8A8Fp8 <= c
                      /\ s = CompressedTensorsW8A8Fp8 (strategy wq)
                               (and_not_dynamic i))
                     \/ (c < get_min_capability rt cls_CompressedTensorsW8A8Fp8
                         /\ exists iq,
                              i = Some iq
                              /\ s = CompressedTensorsW8A16Fp8 (strategy wq)
                                       (Some (negb (dynamic iq))))))
           \/ (_is_fp8_w8a8 w i = false
               /\ _is_fp8_w8a16 w i = true
               /\ VLLM_AVAILABLE rt = true
               /\ s = CompressedTensorsW8A16Fp8 (strategy wq)
                        (and_not_dynamic i))).
Proof.
  unfold activation_quantization_schemes.
  destruct (is_activation_quantization_format rt (quant_format self));
    [|discriminate].
  intros H. split; [reflexivity|].
  destruct (_is_fp8_w8a8 w i) eqn:E8.
  - rewrite global_class_W8A8Fp8 in H. cbn [bind] in H.
    destruct (to_int (device_capability rt)) as [c|e] eqn:Ec.
    + rewrite (check_advisory _ _ _ Ec) in H. cbn [bind] in H.
      destruct (proj1 (_is_fp8_w8a8_true_iff w i) E8)
        as (wq & iq & -> & -> & _).
      exists wq. split; [reflexivity|]. left. split; [reflexivity|].
      exists c. split; [reflexivity|].
      destruct (Z.leb_spec
                  (get_min_capability rt cls_CompressedTensorsW8A8Fp8) c).
      * left. split; [assumption|]. cbn in H |- *. congruence.
      * right. split; [assumption|]. exists iq. split; [reflexivity|].
        cbn in H |- *. congruence.
    + unfold _check_scheme_supported in H. rewrite Ec in H. discriminate.
  - destruct (_is_fp8_w8a16 w i) eqn:E16.
    + destruct (VLLM_AVAILABLE rt); cbn [negb] in H; [|discriminate].
      rewrite global_class_W8A16Fp8 in H. cbn [bind] in H.
      destruct w as [wq|]; [|discriminate].
      exists wq. split; [reflexivity|]. right.
      cbn in H. repeat split; congruence.
    + destruct (_is_static_tensor_w8a8 w i) as [[|]|]; cbn [bind] in H;
        try discriminate.
      * rewrite global_class_W8A8Int8 in H. discriminate.
      * destruct (_is_dynamic_token_w8a8 w i) as [[|]|]; cbn [bind] in H;
          try discriminate.
        rewrite global_class_W8A8Int8 in H. discriminate.
Qed.

(** The branch a returned scheme came from. *)
Lemma classifier_Return
  (w i : option QuantizationArgs) (s : Scheme) :
  _get_scheme_from_parts rt self w i = Return s ->
  exists wq,
    w = Some wq
    /\ ((s = CompressedTensorsWNA16 (num_bits wq) (strategy wq)
               (group_size wq) (actorder wq)
         /\ Cond.wNa16_eligible w i
         /\ VLLM_AVAILABLE rt = true
         /\ quant_format self = CompressionFormat.pack_quantized
         /\ In (num_bits wq) (WNA16_SUPPORTED_BITS rt))
        \/ (s = CompressedTensorsW8A8Fp8 (strategy wq) (and_not_dynamic i)
            /\ _is_fp8_w8a8 w i = true
            /\ is_activation_quantization_format rt (quant_format self) = true
            /\ exists c,
                 to_int (device_capability rt) = Return c
                 /\ get_min_capability rt cls_CompressedTensorsW8A8Fp8 <= c)
        \/ (s = CompressedTensorsW8A16Fp8 (strategy wq) (and_not_dynamic i)
            /\ is_activation_quantization_format rt (quant_format self) = true
            /\ ((_is_fp8_w8a8 w i = true
                 /\ exists c,
                      to_int (device_capability rt) = Return c
                      /\ c < get_min_capability rt cls_CompressedTensorsW8A8Fp8)
                \/ (_is_fp8_w8a8 w i = false
                    /\ _is_fp8_w8a16 w i = true
                    /\ VLLM_AVAILABLE rt = true)))).
Proof.
  intros H.
  assert (A : forall s',
             activation_quantization_schemes rt self w i = Return s' ->
             exists wq,
               w = Some wq
               /\ ((s' = CompressedTensorsW8A8Fp8 (strategy wq)
                           (and_not_dynamic i)
                    /\ _is_fp8_w8a8 w i = true
                    /\ is_activation_quantization_format rt (quant_format self)
                       = true
                    /\ exists c,
                         to_int (device_capability rt) = Return c
                         /\ get_min_capability rt cls_CompressedTensorsW8A8Fp8
                            <= c)
                   \/ (s' = CompressedTensorsW8A16Fp8 (strategy wq)
                              (and_not_dynamic i)
                       /\ is_activation_quantization_format rt
                            (quant_format self) = true
                       /\ ((_is_fp8_w8a8 w i = true
                            /\ exists c,
                                 to_int (device_capability rt) = Return c
                                 /\ c < get_min_capability rt
                                          cls_CompressedTensorsW8A8Fp8)
                           \/ (_is_fp8_w8a8 w i = false
                               /\ _is_fp8_w8a16 w i = true
                               /\ VLLM_AVAILABLE rt = true))))).
  { intros s' Hs.
    apply activation_quantization_schemes_Return in Hs
      as (Hact & wq & -> & [(E8 & c & Ec & [[Hc ->]|(Hc & iq & -> & ->)])
                           |(E8 & E16 & V & ->)]);
      exists wq; (split; [reflexivity|]).
    - left. eauto 10.
    - right. split; [reflexivity|]. split; [assumption|]. left. eauto.
    - right. split; [reflexivity|]. split; [assumption|]. right. auto. }
  unfold _get_scheme_from_parts in H.
  destruct (_is_wNa16_group_channel w i) as [[|]|] eqn:Em; cbn [bind] in H;
    [| |discriminate].
  - destruct (VLLM_AVAILABLE rt) eqn:V; cbn [negb] in H; [|discriminate].
    pose proof (proj1 (_is_wNa16_group_channel_true_iff w i) Em) as Hm.
    destruct Hm as (Hi & wq & -> & Hm).
    cbn [deref bind] in H.
    destruct (String.eqb_spec (quant_format self) CompressionFormat.marlin_24)
      as [Ef|Ef].
    + rewrite global_bits_W4A16SPARSE24 in H. discriminate.
    + cbn [bind] in H.
      destruct (String.eqb_spec (quant_format self)
                  CompressionFormat.pack_quantized) as [Ep|Ep].
      * rewrite (global_bits_WNA16 _ V) in H. cbn [bind] in H.
        destruct (mem_int (num_bits wq) (WNA16_SUPPORTED_BITS rt)) eqn:Eb.
        -- rewrite (global_class_WNA16 _ V) in H. cbn [bind] in H.
           exists wq. split; [reflexivity|]. left.
           injection H as <-. repeat split; auto.
           ++ exists wq. auto.
           ++ unfold mem_int in Eb. apply existsb_exists in Eb as (x & Hx & E).
              apply Z.eqb_eq in E. now subst.
        -- destruct (A s H) as (wq' & E & D).
           exists wq'. split; [exact E|]. right. exact D.
      * cbn [bind] in H. destruct (A s H) as (wq' & E & D).
        exists wq'. split; [exact E|]. right. exact D.
  - destruct (A s H) as (wq' & E & D).
    exists wq'. split; [exact E|]. right. exact D.
Qed.

(** Whenever [_get_scheme_from_parts] returns, the weight quantization is
    present and the scheme is one of three, built on the weight's
    strategy: the weight-only N-bit scheme (no input quantization, vllm
    imported, pack-quantized format, supported bit width), the FP8 w8a8
    scheme (eligible pair, activation-quantizing format, capability met) or
    the FP8 w8a16 scheme (as the degradation of FP8 w8a8, or for an
    eligible weight with vllm imported).  It never returns an INT8 or a
    2:4-sparse scheme. *)
Theorem _get_scheme_from_parts_Return
  (w i : option QuantizationArgs) (s : Scheme) :
  _get_scheme_from_parts rt self w i = Return s ->
  exists wq,
    w = Some wq
    /\ ((s = CompressedTensorsWNA16 (num_bits wq) (strategy wq)
               (group_size wq) (actorder wq)
         /\ Cond.wNa16_eligible w i
         /\ VLLM_AVAILABLE rt = true
         /\ quant_format self = CompressionFormat.pack_quantized
         /\ In (num_bits wq) (WNA16_SUPPORTED_BITS rt))
        \/ (s = CompressedTensorsW8A8Fp8 (strategy wq) (and_not_dynamic i)
            /\ _is_fp8_w8a8 w i = true
            /\ is_activation_quantization_format rt (quant_format self) = true
            /\ exists c,
                 to_int (device_capability rt) = Return c
                 /\ get_min_capability rt cls_CompressedTensorsW8A8Fp8 <= c)
        \/ (s = CompressedTensorsW8A16Fp8 (strategy wq) (and_not_dynamic i)
            /\ is_activation_quantization_format rt (quant_format self) = true
            /\ ((_is_fp8_w8a8 w i = true
                 /\ exists c,
                      to_int (device_capability rt) = Return c
                      /\ c < get_min_capability rt cls_CompressedTensorsW8A8Fp8)
                \/ (_is_fp8_w8a8 w i = false
                    /\ _is_fp8_w8a16 w i = true
                    /\ VLLM_AVAILABLE rt = true)))).
Proof. apply classifier_Return. Qed.

End Classifier.

Lemma _get_scheme_from_parts_Return_witness :
  exists wq,
    Some Example.int4_group = Some wq
    /\ CompressedTensorsWNA16 4 GROUP (Some 128) None
       = CompressedTensorsWNA16 (num_bits wq) (strategy wq)
           (group_size wq) (actorder wq).
Proof.
  destruct (_get_scheme_from_parts_Return (Example.runtime true (8, 0))
              (Example.config_of CompressionFormat.pack_quantized None None)
              (Some Example.int4_group) None
              (CompressedTensorsWNA16 4 GROUP (Some 128) None) eq_refl)
    as (wq & E & [(Es & _)|[(Es & _)|(Es & _)]]);
    try discriminate Es.
  exists wq. split; assumption.
Defined.

Section ClassifierEdges.

Variable rt : Runtime.
Variable self : CompressedTensorsConfig.

Lemma _get_scheme_from_parts_not_mixed (w i : option QuantizationArgs) :
  _is_wNa16_group_channel w i = Return false ->
  _get_scheme_from_parts rt self w i
  = activation_quantization_schemes rt self w i.
Proof.
  intros H. unfold _get_scheme_from_parts. now rewrite H.
Qed.

(** An FP8 weight that is eligible for the w8a16 scheme, in a pair that is
    not eligible for FP8 w8a8 and skips the weight-only N-bit branch, under
    an activation-quantizing format: with vllm imported the classifier
    returns the FP8 w8a16 scheme, whose static-input flag is [None] when
    there is no input quantization; without vllm it raises [ImportError]. *)
Theorem fp8_w8a16_selected (w i : option QuantizationArgs) :
  _is_wNa16_group_channel w i = Return false ->
  is_activation_quantization_format rt (quant_format self) = true ->
  _is_fp8_w8a8 w i = false ->
  _is_fp8_w8a16 w i = true ->
  exists wq,
    w = Some wq
    /\ _get_scheme_from_parts rt self w i
       = if VLLM_AVAILABLE rt
         then Return (CompressedTensorsW8A16Fp8 (strategy wq)
                        (and_not_dynamic i))
         else Raise (ImportError
                       "vllm is not installed, to use CompressedTensorsW8A16Fp8, please install vllm").
Proof.
  intros Hm Hact H8 H16.
  destruct w as [wq|]; [|discriminate].
  exists wq. split; [reflexivity|].
  rewrite (_get_scheme_from_parts_not_mixed _ _ Hm).
  unfold activation_quantization_schemes. rewrite Hact, H8, H16.
  destruct (VLLM_AVAILABLE rt); reflexivity.
Qed.

(** Under an activation-quantizing format, a weight with no input
    quantization that is eligible neither for the weight-only N-bit branch
    nor for FP8 w8a16 makes the classifier raise [AttributeError]: the INT8
    predicates read [input_quant.num_bits]. *)
Theorem missing_input_quant_attribute_error (wq : QuantizationArgs) :
  _is_wNa16_group_channel (Some wq) None = Return false ->
  is_activation_quantization_format rt (quant_format self) = true ->
  _is_fp8_w8a16 (Some wq) None = false ->
  _get_scheme_from_parts rt self (Some wq) None = Raise AttributeError.
Proof.
  intros Hm Hact H16.
  rewrite (_get_scheme_from_parts_not_mixed _ _ Hm).
  unfold activation_quantization_schemes. now rewrite Hact, H16.
Qed.

(** Under a format that does not quantize activations, a pair that skips
    the weight-only N-bit branch finds no scheme. *)
Theorem no_scheme_outside_activation_formats (w i : option QuantizationArgs) :
  _is_wNa16_group_channel w i = Return false ->
  is_activation_quantization_format rt (quant_format self) = false ->
  _get_scheme_from_parts rt self w i
  = Raise (NotImplementedError
             "No compressed-tensors compatible scheme was found.").
Proof.
  intros Hm Hact.
  rewrite (_get_scheme_from_parts_not_mixed _ _ Hm).
  unfold activation_quantization_schemes. now rewrite Hact.
Qed.

(** An INT8 pair, static per-tensor or dynamic per-token, that reaches its
    branch makes the classifier raise [NameError]: the module binds no
    [CompressedTensorsW8A8Int8]. *)
Theorem int8_w8a8_name_error (w i : option QuantizationArgs) :
  _is_static_tensor_w8a8 w i = Return true
  \/ _is_dynamic_token_w8a8 w i = Return true ->
  is_activation_quantization_format rt (quant_format self) = true ->
  _is_fp8_w8a8 w i = false ->
  _is_fp8_w8a16 w i = false ->
  _get_scheme_from_parts rt self w i
  = Raise (NameError "CompressedTensorsW8A8Int8").
Proof.
  intros [H|H] Hact H8 H16.
  - destruct (proj1 (_is_static_tensor_w8a8_true_iff w i) H)
      as (wq & iq & -> & -> & _).
    rewrite _get_scheme_from_parts_quantized_input.
    unfold activation_quantization_schemes.
    rewrite Hact, H8, H16, H. cbn [bind].
    now rewrite global_class_W8A8Int8.
  - now apply dynamic_token_w8a8_branch.
Qed.

End ClassifierEdges.

Lemma fp8_w8a16_selected_witness :
  exists wq,
    Some (Example.fp8_tensor false) = Some wq
    /\ _get_scheme_from_parts (Example.runtime true (8, 0))
         (Example.config_of CompressionFormat.float_quantized None None)
         (Some (Example.fp8_tensor false)) None
       = Return (CompressedTensorsW8A16Fp8 (strategy wq) None).
Proof.
  apply (fp8_w8a16_selected (Example.runtime true (8, 0))
           (Example.config_of CompressionFormat.float_quantized None None)
           (Some (Example.fp8_tensor false)) None);
    reflexivity.
Defined.

Lemma missing_input_quant_attribute_error_witness :
  _get_scheme_from_parts (Example.runtime true (8, 0))
    (Example.config_of CompressionFormat.int_quantized None None)
    (Some Example.int8_tensor) None
  = Raise AttributeError.
Proof.
  apply (missing_input_quant_attribute_error (Example.runtime true (8, 0))
           (Example.config_of CompressionFormat.int_quantized None None)
           Example.int8_tensor);
    reflexivity.
Defined.

Lemma no_scheme_outside_activation_formats_witness :
  _get_scheme_from_parts (Example.runtime true (8, 9))
    (Example.config_of CompressionFormat.pack_quantized None None)
    (Some Example.int8_tensor) (Some Example.int8_token_dynamic)
  = Raise (NotImplementedError
             "No compressed-tensors compatible scheme was found.").
Proof.
  apply (no_scheme_outside_activation_formats (Example.runtime true (8, 9))
           (Example.config_of CompressionFormat.pack_quantized None None)
           (Some Example.int8_tensor) (Some Example.int8_token_dynamic));
    reflexivity.
Defined.

Lemma int8_w8a8_name_error_witness :
  _get_scheme_from_parts (Example.runtime true (8, 9))
    (Example.config_of CompressionFormat.int_quantized None None)
    (Some Example.int8_tensor) (Some Example.int8_tensor)
  = Raise (NameError "CompressedTensorsW8A8Int8").
Proof.
  apply (int8_w8a8_name_error (Example.runtime true (8, 9))
           (Example.config_of CompressionFormat.int_quantized None None)
           (Some Example.int8_tensor) (Some Example.int8_tensor));
    [left; reflexivity|reflexivity|reflexivity|reflexivity].
Defined.

(** *** The outcomes of [get_scheme] and [get_quant_method] *)

Section GetScheme.

Variable rt : Runtime.
Variable self : CompressedTensorsConfig.

(** The three ways the decision on a triple can end. *)
Lemma select_scheme_cases
  (w i : option QuantizationArgs) (sp : option SparsityCompressionConfig)
  (layer_name : option string) (l : list LogCall)
  (r : result (option Scheme)) :
  select_scheme rt self w i sp layer_name = (l, r) ->
  (r = Return None
   /\ l = [warning_once Spec.fallback_warning]
   /\ w = None
   /\ supports_cutlass_24 w i sp = Return false)
  \/ (exists s,
        r = Return (Some s)
        /\ l = [debug "Using scheme: %s for %s" (class_name (class_of s))
                  layer_name]
        /\ supports_cutlass_24 w i sp = Return false
        /\ _get_scheme_from_parts rt self w i = Return s
        /\ 0 <= minor (device_capability rt) < 10
        /\ get_min_capability rt (class_of s)
           <= major (device_capability rt) * 10
              + minor (device_capability rt))
  \/ (exists e, r = Raise e /\ l = []).
Proof.
  unfold select_scheme.
  destruct (supports_cutlass_24 w i sp) as [[|]|e] eqn:Ec.
  - rewrite lbind_lift_Return.
    destruct (VLLM_AVAILABLE rt); cbn [negb].
    + rewrite global_class_24. cbn. intros [= <- <-]. right. right. eauto.
    + cbn. intros [= <- <-]. right. right. eauto.
  - rewrite lbind_lift_Return. destruct w as [wq|].
    + destruct (_get_scheme_from_parts rt self (Some wq) i) as [s|e] eqn:Es.
      * rewrite lbind_lift_Return.
        destruct (check_and_return rt s layer_name) as [l' [r'|e]] eqn:Eg.
        -- apply check_and_return_Return in Eg as (-> & -> & Hm & Hc).
           intros [= <- <-]. right. left. exists s. auto 10.
        -- unfold check_and_return, lbind, lift, emit in Eg.
           destruct (_check_scheme_supported rt _ true);
             cbn in Eg; [discriminate|].
           injection Eg as <- <-. intros [= <- <-]. right. right. eauto.
      * cbn. intros [= <- <-]. right. right. eauto.
    + cbn. intros [= <- <-]. left. auto.
  - cbn. intros [= <- <-]. right. right. eauto.
Qed.

Lemma get_scheme_cases
  (layer : Layer) (layer_name : option string) (l : list LogCall)
  (r : result (option Scheme)) :
  get_scheme rt self layer layer_name = (l, r) ->
  (r = Return None
   /\ l = [warning_once Spec.fallback_warning]
   /\ exists i sp,
        matched_quant rt self layer layer_name = Return (None, i)
        /\ matched_sparsity rt self layer layer_name = Return sp
        /\ supports_cutlass_24 None i sp = Return false)
  \/ (exists s wq i sp,
        r = Return (Some s)
        /\ l = [debug "Using scheme: %s for %s" (class_name (class_of s))
                  layer_name]
        /\ matched_quant rt self layer layer_name = Return (Some wq, i)
        /\ matched_sparsity rt self layer layer_name = Return sp
        /\ supports_cutlass_24 (Some wq) i sp = Return false
        /\ _get_scheme_from_parts rt self (Some wq) i = Return s
        /\ 0 <= minor (device_capability rt) < 10
        /\ get_min_capability rt (class_of s)
           <= major (device_capability rt) * 10
              + minor (device_capability rt))
  \/ (exists e, r = Raise e /\ l = []).
Proof.
  unfold get_scheme.
  destruct (matched_quant rt self layer layer_name) as [[w i]|e] eqn:Eq;
    [|cbn; intros [= <- <-]; right; right; eauto].
  rewrite lbind_lift_Return. cbn [fst snd].
  destruct (matched_sparsity rt self layer layer_name) as [sp|e] eqn:Es;
    [|cbn; intros [= <- <-]; right; right; eauto].
  rewrite lbind_lift_Return. intros H.
  apply select_scheme_cases in H
    as [(-> & -> & -> & Hc)|[(s & -> & -> & Hc & Hp & Hm & Hg)|(e & -> & ->)]].
  - left. eauto 10.
  - right. left.
    destruct (classifier_Return _ _ _ _ _ Hp) as (wq & -> & _).
    exists s, wq, i, sp. auto 10.
  - right. right. eauto.
Qed.

(** [get_scheme] ends in one of three ways.  It returns [None] after the
    one-time warning, and then the matched weight quantization is [None]
    and the 2:4 check returned [False]; or it returns a scheme after one
    debug line carrying that scheme's class name, and then the weight
    quantization is present, the scheme is the one [_get_scheme_from_parts]
    chose and the device meets its minimum capability; or it raises,
    having logged nothing.  A layer with a weight quantization is never
    left without a scheme silently. *)
Theorem get_scheme_outcome
  (layer : Layer) (layer_name : option string) (l : list LogCall)
  (r : result (option Scheme)) :
  get_scheme rt self layer layer_name = (l, r) ->
  (r = Return None
   /\ l = [warning_once Spec.fallback_warning]
   /\ exists i sp,
        matched_quant rt self layer layer_name = Return (None, i)
        /\ matched_sparsity rt self layer layer_name = Return sp
        /\ supports_cutlass_24 None i sp = Return false)
  \/ (exists s wq i sp,
        r = Return (Some s)
        /\ l = [debug "Using scheme: %s for %s" (class_name (class_of s))
                  layer_name]
        /\ matched_quant rt self layer layer_name = Return (Some wq, i)
        /\ matched_sparsity rt self layer layer_name = Return sp
        /\ supports_cutlass_24 (Some wq) i sp = Return false
        /\ _get_scheme_from_parts rt self (Some wq) i = Return s
        /\ 0 <= minor (device_capability rt) < 10
        /\ get_min_capability rt (class_of s)
           <= major (device_capability rt) * 10
              + minor (device_capability rt))
  \/ (exists e, r = Raise e /\ l = []).
Proof. apply get_scheme_cases. Qed.

(** A failed match is fatal for the quantization targets and harmless for
    the sparsity targets: whatever [find_matched_target] raises on the keys
    of a non-empty [target_scheme_map] is raised by [get_scheme], while its
    [ValueError] on the sparsity targets is suppressed and the layer is
    classified as one without sparsity scheme. *)
Theorem match_failures
  (layer : Layer) (layer_name : option string) :
  (forall e,
      target_scheme_map self <> [] ->
      find_matched_target rt layer_name layer
        (keys (target_scheme_map self)) (packed_modules_mapping self)
      = Raise e ->
      get_scheme rt self layer layer_name = ([], Raise e))
  /\ (forall w i msg,
        matched_quant rt self layer layer_name = Return (w, i) ->
        find_matched_target rt layer_name layer
          (filter (fun t => negb (mem_str t (sparsity_ignore_list self)))
                  (keys (sparsity_scheme_map self)))
          (packed_modules_mapping self)
        = Raise (ValueError msg) ->
        get_scheme rt self layer layer_name
        = select_scheme rt self w i None layer_name).
Proof.
  split.
  - intros e Hne He. unfold get_scheme, matched_quant.
    destruct (target_scheme_map self) as [|kv tl]; [congruence|].
    now rewrite He.
  - intros w i msg Hq Hs. unfold get_scheme, matched_sparsity.
    rewrite Hq, lbind_lift_Return, Hs, lbind_lift_Return. reflexivity.
Qed.

(** [get_quant_method] changes the layer only when it returns the
    compressed-tensors linear method: the layer is then a linear one that
    is not ignored, and the scheme set on it is the one [get_scheme]
    returned, whose minimum capability the device meets.  With any other
    method, or with none, the layer is returned as it was. *)
Theorem get_quant_method_outcome
  (layer layer' : Layer) (prefix : string) (l : list LogCall)
  (m : option QuantizeMethod) :
  get_quant_method rt self layer prefix = (l, Return (m, layer')) ->
  (m = Some UnquantizedLinearMethod /\ layer' = layer)
  \/ (exists s,
        m = Some (CompressedTensorsLinearMethod self)
        /\ layer' = set_scheme layer s
        /\ should_ignore_layer rt prefix (ignore self)
             (packed_modules_mapping self) = false
        /\ is_LinearBase layer = true
        /\ get_scheme rt self layer (Some prefix)
           = (l, Return (Some s))
        /\ get_min_capability rt (class_of s)
           <= major (device_capability rt) * 10
              + minor (device_capability rt))
  \/ (m = Some (CompressedTensorsMoEMethod self) /\ layer' = layer
      /\ is_LinearBase layer = false /\ is_FusedMoE layer = true)
  \/ (m = None /\ layer' = layer
      /\ is_LinearBase layer = false /\ is_FusedMoE layer = false).
Proof.
  unfold get_quant_method.
  destruct (should_ignore_layer rt prefix (ignore self)
              (packed_modules_mapping self)) eqn:Ei.
  { cbn. intros [= <- <- <-]. left. auto. }
  destruct (is_LinearBase layer) eqn:El.
  - destruct (get_scheme rt self layer (Some prefix)) as [l0 r0] eqn:Eg.
    pose proof (get_scheme_cases _ _ _ _ Eg) as
      [(-> & -> & _)|[(s & wq & i & sp & -> & -> & _ & _ & _ & _ & _ & Hc)
                     |(e & -> & ->)]].
    + cbn. intros [= <- <- <-]. left. auto.
    + cbn. intros [= <- <- <-]. right. left. exists s. auto 10.
    + cbn. discriminate.
  - destruct (is_FusedMoE layer) eqn:Ef; cbn; intros [= <- <- <-].
    + right. right. left. auto.
    + right. right. right. auto.
Qed.

End GetScheme.

Lemma get_scheme_outcome_witness :
  exists s wq i sp,
    Return (Some (CompressedTensorsW8A8Fp8 TENSOR (Some true)))
    = Return (Some s)
    /\ matched_quant (Example.runtime true (8, 9))
         (Example.config_of CompressionFormat.float_quantized
            (Example.both (Example.fp8_tensor false)
                          (Example.fp8_tensor false)) None)
         Example.linear (Some "model.layers.0.mlp.down_proj")
       = Return (Some wq, i)
    /\ matched_sparsity (Example.runtime true (8, 9))
         (Example.config_of CompressionFormat.float_quantized
            (Example.both (Example.fp8_tensor false)
                          (Example.fp8_tensor false)) None)
         Example.linear (Some "model.layers.0.mlp.down_proj")
       = Return sp.
Proof.
  destruct (get_scheme_outcome (Example.runtime true (8, 9))
              (Example.config_of CompressionFormat.float_quantized
                 (Example.both (Example.fp8_tensor false)
                               (Example.fp8_tensor false)) None)
              Example.linear (Some "model.layers.0.mlp.down_proj")
              [debug "Using scheme: %s for %s" "CompressedTensorsW8A8Fp8"
                 (Some "model.layers.0.mlp.down_proj")]
              (Return (Some (CompressedTensorsW8A8Fp8 TENSOR (Some true))))
              eq_refl)
    as [(E & _)|[(s & wq & i & sp & E & _ & Hq & Hs & _)|(e & E & _)]];
    try discriminate E.
  exists s, wq, i, sp. auto.
Defined.

Lemma match_failures_witness :
  get_scheme (Example.runtime true (8, 9))
    (Example.config_of CompressionFormat.float_quantized
       (Example.both (Example.fp8_tensor false) (Example.fp8_tensor false))
       None)
    {| module_class := "Embedding"; is_LinearBase := true;
       is_FusedMoE := false; scheme := None |}
    (Some "model.embed_tokens")
  = ([], Raise (ValueError "Unable to find matching target in the config"))
  /\ get_scheme (Example.runtime true (8, 9))
       (Example.config_of CompressionFormat.float_quantized
          (Example.both (Example.fp8_tensor false) (Example.fp8_tensor false))
          None)
       Example.linear (Some "model.layers.0.mlp.down_proj")
     = select_scheme (Example.runtime true (8, 9))
         (Example.config_of CompressionFormat.float_quantized
            (Example.both (Example.fp8_tensor false)
                          (Example.fp8_tensor false)) None)
         (Some (Example.fp8_tensor false)) (Some (Example.fp8_tensor false))
         None (Some "model.layers.0.mlp.down_proj").
Proof.
  split.
  - apply (proj1 (match_failures (Example.runtime true (8, 9))
                    (Example.config_of CompressionFormat.float_quantized
                       (Example.both (Example.fp8_tensor false)
                                     (Example.fp8_tensor false)) None)
                    {| module_class := "Embedding"; is_LinearBase := true;
                       is_FusedMoE := false; scheme := None |}
                    (Some "model.embed_tokens")));
      [discriminate|reflexivity].
  - apply (proj2 (match_failures (Example.runtime true (8, 9))
                    (Example.config_of CompressionFormat.float_quantized
                       (Example.both (Example.fp8_tensor false)
                                     (Example.fp8_tensor false)) None)
                    Example.linear (Some "model.layers.0.mlp.down_proj"))
             _ _ "Unable to find matching target in the config");
      reflexivity.
Defined.

Lemma get_quant_method_outcome_witness :
  exists s,
    Some (CompressedTensorsLinearMethod
            (Example.config_of CompressionFormat.float_quantized
               (Example.both (Example.fp8_tensor false)
                             (Example.fp8_tensor false)) None))
    = Some (CompressedTensorsLinearMethod
              (Example.config_of CompressionFormat.float_quantized
                 (Example.both (Example.fp8_tensor false)
                               (Example.fp8_tensor false)) None))
    /\ set_scheme Example.linear (CompressedTensorsW8A8Fp8 TENSOR (Some true))
       = set_scheme Example.linear s
    /\ get_min_capability (Example.runtime true (8, 9)) (class_of s) <= 89.
Proof.
  destruct (get_quant_method_outcome (Example.runtime true (8, 9))
              (Example.config_of CompressionFormat.float_quantized
                 (Example.both (Example.fp8_tensor false)
                               (Example.fp8_tensor false)) None)
              Example.linear
              (set_scheme Example.linear
                 (CompressedTensorsW8A8Fp8 TENSOR (Some true)))
              "model.layers.0.mlp.down_proj"
              [debug "Using scheme: %s for %s" "CompressedTensorsW8A8Fp8"
                 (Some "model.layers.0.mlp.down_proj")]
              (Some (CompressedTensorsLinearMethod
                       (Example.config_of CompressionFormat.float_quantized
                          (Example.both (Example.fp8_tensor false)
                                        (Example.fp8_tensor false)) None)))
              eq_refl)
    as [(E & _)|[(s & E & El & _ & _ & _ & Hc)|[(E & _)|(E & _)]]];
    try discriminate E.
  exists s. auto.
Defined.

(** *** Device capabilities *)

(** [to_int] succeeds exactly when the minor version is a single digit and
    raises [AssertionError] otherwise; the capability is recovered from the
    integer as its quotient and remainder by 10, so two capabilities with
    the same integer are equal. *)
Theorem to_int_decodes (a b : DeviceCapability) (c : Z) :
  ((exists x, to_int a = Return x) <-> 0 <= minor a < 10)
  /\ (to_int a = Raise AssertionError <-> ~ 0 <= minor a < 10)
  /\ (to_int a = Return c ->
      major a = c / 10 /\ minor a = c mod 10
      /\ (to_int b = Return c -> a = b)).
Proof.
  split; [|split].
  - split.
    + intros [x H]. now apply to_int_Return in H.
    + intros H. exists (major a * 10 + minor a). now apply to_int_Return.
  - unfold to_int, assert.
    destruct (Z.leb_spec 0 (minor a)), (Z.ltb_spec (minor a) 10); cbn;
      split; intros E; try discriminate; try lia; reflexivity.
  - intros H. apply to_int_Return in H as [Hm ->].
    assert (Hq : (major a * 10 + minor a) / 10 = major a).
    { rewrite Z.add_comm, Z.div_add by lia.
      rewrite Z.div_small by lia. lia. }
    assert (Hr : (major a * 10 + minor a) mod 10 = minor a).
    { rewrite Z.add_comm, Z.mod_add by lia. now apply Z.mod_small. }
    split; [now rewrite Hq|]. split; [now rewrite Hr|].
    intros Hb. apply to_int_Return in Hb as [Hmb Hb].
    destruct a as [ma na], b as [mb nb]; cbn in *.
    assert (ma = mb /\ na = nb) as [-> ->] by lia.
    reflexivity.
Qed.

Lemma to_int_decodes_witness :
  major {| major := 8; minor := 9 |} = 89 / 10
  /\ minor {| major := 8; minor := 9 |} = 89 mod 10.
Proof.
  destruct (proj2 (proj2 (to_int_decodes {| major := 8; minor := 9 |}
                            {| major := 8; minor := 9 |} 89)) eq_refl)
    as (Hq & Hr & _).
  split; assumption.
Defined.

(** The integers [to_int] gives are ordered as the capabilities are,
    major version first. *)
Theorem to_int_monotone (a b : DeviceCapability) (x y : Z) :
  to_int a = Return x ->
  to_int b = Return y ->
  (x <= y
   <-> major a < major b \/ (major a = major b /\ minor a <= minor b)).
Proof.
  intros Ha Hb.
  apply to_int_Return in Ha as [Hma ->].
  apply to_int_Return in Hb as [Hmb ->].
  lia.
Qed.

Lemma to_int_monotone_witness :
  80 <= 89
  <-> major {| major := 8; minor := 0 |} < major {| major := 8; minor := 9 |}
      \/ (major {| major := 8; minor := 0 |}
          = major {| major := 8; minor := 9 |}
          /\ minor {| major := 8; minor := 0 |}
             <= minor {| major := 8; minor := 9 |}).
Proof.
  apply (to_int_monotone {| major := 8; minor := 0 |}
           {| major := 8; minor := 9 |} 80 89);
    reflexivity.
Defined.

(** The two modes of [_check_scheme_supported] agree: the advisory mode
    returns [True] exactly when the fatal mode does, returns [False]
    exactly when the fatal mode raises [RuntimeError], and never raises
    [RuntimeError] itself; both raise [AssertionError] on a device whose
    minor version is not a single digit.  A device that supports a minimum
    capability supports every lower one. *)
Theorem check_scheme_supported_modes (rt : Runtime) (min_capability : Z) :
  (_check_scheme_supported rt min_capability false = Return true
   <-> _check_scheme_supported rt min_capability true = Return true)
  /\ (_check_scheme_supported rt min_capability false = Return false
      <-> exists c,
            _check_scheme_supported rt min_capability true
            = Raise (RuntimeError min_capability c))
  /\ (forall m c,
        _check_scheme_supported rt min_capability false
        <> Raise (RuntimeError m c))
  /\ (_check_scheme_supported rt min_capability false = Raise AssertionError
      <-> ~ 0 <= snd (get_device_capability rt) < 10)
  /\ (_check_scheme_supported rt min_capability true = Raise AssertionError
      <-> ~ 0 <= snd (get_device_capability rt) < 10)
  /\ (forall lower,
        lower <= min_capability ->
        _check_scheme_supported rt min_capability false = Return true ->
        _check_scheme_supported rt lower false = Return true).
Proof.
  destruct (to_int (device_capability rt)) as [c|e] eqn:E.
  - rewrite !(check_advisory _ _ _ E), (check_fatal _ _ _ E).
    pose proof (proj1 (to_int_Return _ _) E) as [Hm _]. cbn in Hm.
    destruct (Z.leb_spec min_capability c) as [Hc|Hc].
    + repeat split; try discriminate; try tauto; try lia.
      * intros [c' H]. discriminate.
      * intros lower Hl _. rewrite (check_advisory _ _ _ E).
        destruct (Z.leb_spec lower c); [reflexivity|lia].
    + repeat split; try discriminate; try tauto; try lia.
      intros _. now exists c.
  - assert (Ee : e = AssertionError /\ ~ 0 <= snd (get_device_capability rt) < 10).
    { unfold to_int, assert in E. cbn in E.
      destruct (Z.leb_spec 0 (snd (get_device_capability rt))),
               (Z.ltb_spec (snd (get_device_capability rt)) 10);
        cbn in E; try discriminate; injection E as <-; split; auto; lia. }
    destruct Ee as [-> Hn].
    unfold _check_scheme_supported. rewrite E. cbn.
    repeat split; try discriminate; try tauto.
    intros [c H]. discriminate.
Qed.

Lemma check_scheme_supported_modes_witness :
  _check_scheme_supported (Example.runtime true (8, 9)) 80 false
  = Return true.
Proof.
  apply (proj2 (proj2 (proj2 (proj2 (proj2
           (check_scheme_supported_modes (Example.runtime true (8, 9)) 89)))))
           80);
    [lia|reflexivity].
Defined.

(** *** [str.replace] and the names [get_cache_scale] rewrites *)

Section Replace.

Local Open Scope string_scope.

Lemma startswith_empty (s : string) : startswith s "" = true.
Proof. now destruct s. Qed.

Lemma startswith_app (s p t : string) :
  startswith s p = true -> startswith (s ++ t) p = true.
Proof.
  revert s. induction p as [|a p IH]; intros s H;
    [apply startswith_empty|].
  destruct s as [|b s]; [discriminate|].
  cbn in H |- *. apply andb_true_iff in H as [E H].
  now rewrite E, (IH _ H).
Qed.

Lemma startswith_length (s p : string) :
  startswith s p = true -> (String.length p <= String.length s)%nat.
Proof.
  revert s. induction p as [|a p IH]; intros s H; cbn; [lia|].
  destruct s as [|b s]; [discriminate|].
  cbn in H |- *. apply andb_true_iff in H as [_ H].
  apply IH in H. lia.
Qed.

Lemma startswith_refl (s : string) : startswith s s = true.
Proof.
  induction s as [|a s IH]; [reflexivity|].
  cbn. now rewrite Ascii.eqb_refl.
Qed.

Lemma replace_from_skip_all (old new : string) (k : nat) (s : string) :
  (String.length s <= k)%nat -> replace_from old new k s = "".
Proof.
  revert k. induction s as [|c s IH]; intros k H; [reflexivity|].
  cbn in H. destruct k as [|k]; [lia|].
  cbn. apply IH. lia.
Qed.

Lemma append_assoc (a b c : string) : (a ++ b) ++ c = a ++ (b ++ c).
Proof.
  induction a as [|x a IH]; [reflexivity|]. cbn. now rewrite IH.
Qed.

Lemma append_empty_r (a : string) : a ++ "" = a.
Proof.
  induction a as [|x a IH]; [reflexivity|]. cbn. now rewrite IH.
Qed.

Lemma replace_from_self (old new : string) :
  old <> "" -> replace_from old new 0 old = new.
Proof.
  destruct old as [|a t]; [congruence|]. intros _.
  cbn [replace_from]. rewrite startswith_refl.
  cbn [String.length Nat.pred].
  rewrite replace_from_skip_all by lia. apply append_empty_r.
Qed.

(** A string without occurrence of [old] is left as it is. *)
Lemma replace_from_absent (old new s : string) :
  contains old s = false -> replace_from old new 0 s = s.
Proof.
  induction s as [|c s IH]; intros H; [reflexivity|].
  cbn [contains] in H.
  destruct (startswith (String c s) old) eqn:E; [discriminate|].
  cbn [replace_from]. rewrite E. now rewrite (IH H).
Qed.

Variables old new : string.

Hypothesis border_free :
  forall q, startswith (q ++ old) old = true ->
            q = "" \/ startswith q old = true.

(** With an [old] that no proper suffix of itself starts, the occurrence
    at the end of [p ++ old] is replaced whatever [p] holds. *)
Lemma replace_from_app_old (k : nat) (p : string) :
  old <> "" ->
  (k <= String.length p)%nat ->
  replace_from old new k (p ++ old) = replace_from old new k p ++ new.
Proof.
  intros Hne. revert k. induction p as [|c p IH]; intros k Hk.
  - cbn in Hk. assert (k = 0)%nat as -> by lia.
    cbn [append replace_from]. now apply replace_from_self.
  - cbn [append]. destruct k as [|k].
    + cbn [replace_from].
      destruct (startswith (String c (p ++ old)) old) eqn:E.
      * destruct (border_free (String c p) E) as [D|D]; [discriminate|].
        rewrite D. rewrite append_assoc. f_equal.
        apply IH. apply startswith_length in D. cbn in D.
        assert (String.length old <> 0)%nat.
        { destruct old; [congruence|discriminate]. }
        lia.
      * destruct (startswith (String c p) old) eqn:D.
        -- apply (startswith_app _ _ old) in D. cbn [append] in D. congruence.
        -- cbn [append]. f_equal. apply IH. lia.
    + cbn [replace_from]. apply IH. cbn in Hk. lia.
Qed.

End Replace.

Section CacheScaleGeneral.

Local Open Scope string_scope.

Ltac peel H :=
  cbn [startswith append] in H;
  first [ discriminate H
        | let E := fresh "E" in
          apply andb_true_iff in H; destruct H as [E H];
          apply Ascii.eqb_eq in E; first [discriminate E | subst] ].

Lemma k_scale_border_free (q : string) :
  startswith (q ++ ".k_proj.output_scale") ".k_proj.output_scale" = true ->
  q = "" \/ startswith q ".k_proj.output_scale" = true.
Proof.
  intros H.
  destruct q as [|c1 q]; [now left|right].
  do 20 (try peel H; try (destruct q as [|? q])).
  all: reflexivity.
Qed.

Lemma v_scale_border_free (q : string) :
  startswith (q ++ ".v_proj.output_scale") ".v_proj.output_scale" = true ->
  q = "" \/ startswith q ".v_proj.output_scale" = true.
Proof.
  intros H.
  destruct q as [|c1 q]; [now left|right].
  do 20 (try peel H; try (destruct q as [|? q])).
  all: reflexivity.
Qed.

(** Every name that ends in [.k_proj.output_scale] is mapped to a name that
    ends in [.attn.k_scale]: the rest of the name is kept, with any earlier
    [.k_proj.output_scale] in it rewritten as well.  The same holds for
    [.v_proj.output_scale] and [.attn.v_scale] when the rest of the name
    holds no [.k_proj]. *)
Theorem get_cache_scale_suffix (p : string) :
  get_cache_scale (p ++ ".k_proj.output_scale")
  = Some (replace p ".k_proj.output_scale" ".attn.k_scale" ++ ".attn.k_scale")
  /\ (contains ".k_proj" p = false ->
      get_cache_scale (p ++ ".v_proj.output_scale")
      = Some (replace p ".v_proj.output_scale" ".attn.v_scale"
              ++ ".attn.v_scale")).
Proof.
  split.
  - unfold get_cache_scale.
    rewrite (endswith_app p ".k_proj.output_scale" ".output_scale" eq_refl),
      (contains_app ".k_proj" p ".k_proj.output_scale" eq_refl).
    cbn [andb]. f_equal. unfold replace.
    apply replace_from_app_old;
      [apply k_scale_border_free|discriminate|lia].
  - intros Hk. unfold get_cache_scale.
    rewrite (endswith_app p ".v_proj.output_scale" ".output_scale" eq_refl),
      (k_proj_not_in_v_name _ Hk),
      (contains_app ".v_proj" p ".v_proj.output_scale" eq_refl).
    cbn [andb]. f_equal. unfold replace.
    apply replace_from_app_old;
      [apply v_scale_border_free|discriminate|lia].
Qed.

Lemma get_cache_scale_suffix_witness :
  get_cache_scale ("model.layers.0.self_attn" ++ ".v_proj.output_scale")
  = Some (replace "model.layers.0.self_attn" ".v_proj.output_scale"
            ".attn.v_scale" ++ ".attn.v_scale").
Proof.
  apply (proj2 (get_cache_scale_suffix "model.layers.0.self_attn")).
  reflexivity.
Defined.

(** A name that ends in [.output_scale] and holds [.k_proj], but not
    directly before the final [.output_scale] nor anywhere as
    [.k_proj.output_scale], is returned unchanged; the [.k_proj] test comes
    first, so this is also the case when the name ends in
    [.v_proj.output_scale]. *)
Theorem get_cache_scale_unchanged (name : string) :
  endswith name ".output_scale" = true ->
  contains ".k_proj" name = true ->
  contains ".k_proj.output_scale" name = false ->
  get_cache_scale name = Some name.
Proof.
  intros He Hk Hn. unfold get_cache_scale. rewrite He, Hk. cbn [andb].
  f_equal. unfold replace. now apply replace_from_absent.
Qed.

Lemma get_cache_scale_unchanged_witness :
  get_cache_scale "model.k_proj.layers.0.v_proj.output_scale"
  = Some "model.k_proj.layers.0.v_proj.output_scale".
Proof.
  apply (get_cache_scale_unchanged
           "model.k_proj.layers.0.v_proj.output_scale");
    reflexivity.
Defined.

End CacheScaleGeneral.

(** *** Dictionaries *)

Lemma getitem_setitem_same {V : Type} (d : list (string * V)) k (v : V) :
  getitem (setitem d k v) k = Return v.
Proof.
  induction d as [|[k' v'] d IH]; cbn.
  - now rewrite String.eqb_refl.
  - destruct (String.eqb_spec k' k) as [->|N]; cbn.
    + now rewrite String.eqb_refl.
    + destruct (String.eqb_spec k' k); [contradiction|exact IH].
Qed.

Lemma getitem_setitem_other {V : Type} (d : list (string * V)) k k' (v : V) :
  k' <> k -> getitem (setitem d k v) k' = getitem d k'.
Proof.
  intros N. induction d as [|[k0 v0] d IH]; cbn.
  - destruct (String.eqb_spec k k'); [congruence|reflexivity].
  - destruct (String.eqb_spec k0 k) as [->|N0]; cbn.
    + destruct (String.eqb_spec k k'); [congruence|reflexivity].
    + destruct (String.eqb_spec k0 k'); [reflexivity|exact IH].
Qed.

Lemma In_setitem {V : Type} (d : list (string * V)) k (v : V) k' v' :
  In (k', v') (setitem d k v) -> (k' = k /\ v' = v) \/ In (k', v') d.
Proof.
  induction d as [|[k0 v0] d IH]; cbn.
  - intros [[= <- <-]|[]]. now left.
  - destruct (String.eqb_spec k0 k) as [->|N0]; cbn.
    + intros [[= <- <-]|H]; auto.
    + intros [E|H]; auto. destruct (IH H); auto.
Qed.

Lemma keys_setitem {V : Type} (d : list (string * V)) k (v : V) k' :
  In k' (keys (setitem d k v)) <-> k' = k \/ In k' (keys d).
Proof.
  unfold keys. induction d as [|[k0 v0] d IH]; cbn.
  - intuition.
  - destruct (String.eqb_spec k0 k) as [->|N0]; cbn.
    + intuition.
    + rewrite IH. intuition.
Qed.

Lemma NoDup_keys_setitem {V : Type} (d : list (string * V)) k (v : V) :
  NoDup (keys d) -> NoDup (keys (setitem d k v)).
Proof.
  induction d as [|[k0 v0] d IH]; cbn; intros H.
  - constructor; [intros []|constructor].
  - inversion H as [|? ? Hn Hd]; subst.
    destruct (String.eqb_spec k0 k) as [->|N0]; cbn.
    + now constructor.
    + constructor; [|now apply IH].
      intros Hin. apply (keys_setitem d k v k0) in Hin as [E|Hin]; auto.
Qed.

Lemma getitem_In {V : Type} (d : list (string * V)) k (v : V) :
  getitem d k = Return v -> In (k, v) d.
Proof.
  induction d as [|[k0 v0] d IH]; cbn; [discriminate|].
  destruct (String.eqb_spec k0 k) as [->|N].
  - intros [= ->]. now left.
  - intros H. right. now apply IH.
Qed.

Lemma getitem_keys {V : Type} (d : list (string * V)) k :
  In k (keys d) -> exists v, getitem d k = Return v.
Proof.
  unfold keys. induction d as [|[k0 v0] d IH]; cbn; [intros []|].
  destruct (String.eqb_spec k0 k) as [->|N]; [eauto|].
  intros [E|H]; [contradiction|auto].
Qed.

Lemma fold_setitem_const {V : Type} (v : V) (l : list string)
  (d : list (string * V)) :
  let m := fold_left (fun d t => setitem d t v) l d in
  (forall t, In t (keys m) <-> In t l \/ In t (keys d))
  /\ (forall t, In t l -> getitem m t = Return v)
  /\ (forall t, ~ In t l -> getitem m t = getitem d t)
  /\ (NoDup (keys d) -> NoDup (keys m)).
Proof.
  revert d. induction l as [|a l IH]; intros d; cbn.
  - intuition.
  - destruct (IH (setitem d a v)) as (Hk & Hin & Hout & Hnd).
    repeat split.
    + intros H. apply Hk in H as [H|H]; auto.
      apply keys_setitem in H as [->|H]; auto.
    + intros [[->|H]|H]; apply Hk; auto.
      * right. apply keys_setitem. auto.
      * right. apply keys_setitem. auto.
    + intros t [->|H]; auto.
      destruct (in_dec string_dec t l) as [I|I]; auto.
      rewrite (Hout _ I). apply getitem_setitem_same.
    + intros t H. rewrite Hout by tauto.
      apply getitem_setitem_other. intros ->. apply H. now left.
    + intros H. apply Hnd. now apply NoDup_keys_setitem.
Qed.


(** *** [_parse_sparsity_config] *)

Section SparsityFacts.

Variable validate_sparsity : Json -> result SparsityCompressionConfig.

(** Without a [sparsity_config] entry, or with a falsy one,
    [_parse_sparsity_config] returns an empty map and an empty ignore
    list.  Otherwise the entry is validated, a validation error is raised
    on, and after a successful validation the keys of the map are exactly
    the targets of the validated configuration, each bound to that one
    configuration, and the ignore list is the configuration's, or empty. *)
Theorem _parse_sparsity_config_spec (config : RawConfig) :
  (truthy (dict_get config SPARSITY_CONFIG_NAME) = false ->
   _parse_sparsity_config validate_sparsity config = Return ([], []))
  /\ (truthy (dict_get config SPARSITY_CONFIG_NAME) = true ->
      (forall e,
          validate_sparsity (dict_get config SPARSITY_CONFIG_NAME) = Raise e ->
          _parse_sparsity_config validate_sparsity config = Raise e)
      /\ (forall sc,
            validate_sparsity (dict_get config SPARSITY_CONFIG_NAME)
            = Return sc ->
            exists m,
              _parse_sparsity_config validate_sparsity config
              = Return (m, or_list (sparsity_ignore sc))
              /\ NoDup (keys m)
              /\ (forall t,
                    In t (keys m) <-> In t (or_list (sparsity_targets sc)))
              /\ (forall t,
                    In t (or_list (sparsity_targets sc)) ->
                    getitem m t = Return sc))).
Proof.
  unfold _parse_sparsity_config. split.
  - intros ->. reflexivity.
  - intros ->. cbn [negb]. split.
    + intros e ->. reflexivity.
    + intros sc ->. cbn [bind].
      destruct (fold_setitem_const sc (or_list (sparsity_targets sc)) [])
        as (Hk & Hin & _ & Hnd).
      eexists. split; [reflexivity|]. split; [apply Hnd; constructor|].
      split; [|exact Hin].
      intros t. rewrite Hk. cbn. tauto.
Qed.

End SparsityFacts.

(** *** [_quantization_scheme_map_from_config] *)

Lemma mentions_In (t : string) (l : list Json) :
  mentions t l = true <-> In (JStr t) l.
Proof.
  unfold mentions. rewrite existsb_exists. split.
  - intros (x & Hx & E). destruct x; try discriminate.
    apply String.eqb_eq in E. now subst.
  - intros H. exists (JStr t). split; [exact H|apply String.eqb_refl].
Qed.

Lemma In_JStr_dec (t : string) (l : list Json) :
  In (JStr t) l \/ ~ In (JStr t) l.
Proof.
  rewrite <- mentions_In. destruct (mentions t l); auto.
Qed.

Section QuantMapFacts.

Variable rt : Runtime.
Variable validate_args : Json -> result QuantizationArgs.

Lemma scheme_dict_of_Done (format : Json) (qc : RawConfig) (d : SchemeDict) :
  scheme_dict_of rt validate_args format qc = Done d ->
  exists fmt, format = JStr fmt /\ entry_ok rt fmt d.
Proof.
  unfold scheme_dict_of.
  destruct (validate_args (dict_get qc "weights")) as [w|e]; [|discriminate].
  cbn [of_result obind].
  destruct format as [| | |fmt| |]; try discriminate. cbn [as_str typed obind].
  intros H. exists fmt. split; [reflexivity|].
  destruct (is_activation_quantization_format rt fmt) eqn:Ea.
  - destruct (negb (truthy (dict_get qc "input_activations"))).
    + unfold assert in H. destruct (type_eqb (type w) FLOAT) eqn:Et;
        [|discriminate].
      injection H as <-. exists w. cbn. repeat split; auto.
      intros _ _. now destruct (type w).
    + destruct (validate_args (dict_get qc "input_activations")) as [i|e];
        [|discriminate].
      injection H as <-. exists w. cbn. repeat split; auto. congruence.
  - injection H as <-. exists w. cbn. repeat split; auto; congruence.
Qed.

Lemma add_targets_ok (format : Json) (qc : RawConfig) (targets : list Json)
  (m m' : list (string * SchemeDict)) :
  map_ok rt format m ->
  add_targets rt validate_args format qc targets m = Done m' ->
  map_ok rt format m'.
Proof.
  revert m. induction targets as [|t targets IH]; intros m Hm; cbn.
  - now intros [= <-].
  - destruct (as_str t) as [k|]; [|discriminate]. cbn [typed obind].
    destruct (scheme_dict_of rt validate_args format qc) as [d| |] eqn:Ed;
      try discriminate.
    cbn [obind]. apply IH.
    destruct Hm as [Hnd Hall]. split; [now apply NoDup_keys_setitem|].
    intros k' d' Hin. apply In_setitem in Hin as [[-> ->]|Hin]; eauto.
    now apply scheme_dict_of_Done in Ed.
Qed.

Lemma add_groups_ok (format : Json) (groups : list (string * Json))
  (m m' : list (string * SchemeDict)) :
  map_ok rt format m ->
  add_groups rt validate_args format groups m = Done m' ->
  map_ok rt format m'.
Proof.
  revert m. induction groups as [|[name g] groups IH]; intros m Hm; cbn.
  - now intros [= <-].
  - destruct (as_dict g) as [qc|e]; [|discriminate]. cbn [of_result obind].
    destruct (iterate (dict_get qc "targets")) as [targets|]; [|discriminate].
    cbn [typed obind].
    destruct (add_targets rt validate_args format qc targets m)
      as [m1| |] eqn:E1; try discriminate.
    cbn [obind]. apply IH. now apply (add_targets_ok _ _ _ _ _ Hm E1).
Qed.

Lemma add_groups_entries
  (config : RawConfig) (m : list (string * SchemeDict)) :
  _quantization_scheme_map_from_config rt validate_args config = Done m ->
  NoDup (keys m)
  /\ forall k d,
       In (k, d) m ->
       exists fmt w,
         dict_get config "format" = JStr fmt
         /\ weights d = Some w
         /\ (input_activations d <> None ->
             is_activation_quantization_format rt fmt = true)
         /\ (input_activations d = None ->
             is_activation_quantization_format rt fmt = true ->
             type w = FLOAT).
Proof.
  unfold _quantization_scheme_map_from_config.
  destruct (as_dict (dict_get_default config "config_groups" (JDict [])))
    as [groups|e]; [|discriminate].
  cbn [of_result obind]. intros H.
  apply add_groups_ok in H as [Hnd Hall].
  - split; [exact Hnd|]. intros k d Hin.
    destruct (Hall k d Hin) as (fmt & Ef & w & Hw & Hi & Hf).
    exists fmt, w. auto.
  - split; [constructor|]. intros k d [].
Qed.


Lemma add_targets_lookup (format : Json) (qc : RawConfig)
  (targets : list Json) (m m' : list (string * SchemeDict)) :
  add_targets rt validate_args format qc targets m = Done m' ->
  (forall t, In (JStr t) targets ->
             exists d, scheme_dict_of rt validate_args format qc = Done d
                       /\ getitem m' t = Return d)
  /\ (forall t, ~ In (JStr t) targets -> getitem m' t = getitem m t).
Proof.
  revert m. induction targets as [|x targets IH]; intros m; cbn.
  - intros [= <-]. split; [intros t []|reflexivity].
  - destruct x as [| | |k| |]; try discriminate. cbn [as_str typed obind].
    destruct (scheme_dict_of rt validate_args format qc) as [d| |] eqn:Ed;
      try discriminate.
    cbn [obind]. intros H. destruct (IH _ H) as [Hin Hout]. split.
    + intros t [[= ->]|Ht]; [|now apply Hin].
      exists d. split; [reflexivity|].
      destruct (In_JStr_dec t targets) as [I|I].
      * destruct (Hin _ I) as (d' & [= <-] & E). exact E.
      * rewrite (Hout _ I). apply getitem_setitem_same.
    + intros t Ht. rewrite Hout by tauto.
      apply getitem_setitem_other. intros ->. apply Ht. now left.
Qed.

Lemma add_groups_skip (format : Json) (t : string)
  (groups : list (string * Json)) (m m' : list (string * SchemeDict)) :
  (forall name g, In (name, g) groups -> group_skips t g) ->
  add_groups rt validate_args format groups m = Done m' ->
  getitem m' t = getitem m t.
Proof.
  revert m. induction groups as [|[name g] groups IH]; intros m Hs; cbn.
  - now intros [= <-].
  - destruct g as [| | | | |qc]; try discriminate.
    cbn [as_dict of_result obind].
    destruct (iterate (dict_get qc "targets")) as [targets|] eqn:Et;
      [|discriminate].
    cbn [typed obind].
    destruct (add_targets rt validate_args format qc targets m)
      as [m1| |] eqn:E1; try discriminate.
    cbn [obind]. intros H.
    rewrite (IH m1 (fun n g' I => Hs n g' (or_intror I)) H).
    apply (proj2 (add_targets_lookup _ _ _ _ _ E1)).
    apply (Hs name (JDict qc) (or_introl eq_refl) qc targets eq_refl Et).
Qed.

Lemma add_groups_last (format : Json) (t : string) (name : string)
  (qc : RawConfig) (targets : list Json)
  (pre post : list (string * Json)) (m m' : list (string * SchemeDict)) :
  iterate (dict_get qc "targets") = Some targets ->
  In (JStr t) targets ->
  (forall n g, In (n, g) post -> group_skips t g) ->
  add_groups rt validate_args format (pre ++ (name, JDict qc) :: post) m
  = Done m' ->
  exists d,
    scheme_dict_of rt validate_args format qc = Done d
    /\ getitem m' t = Return d.
Proof.
  intros Et Hin Hpost. revert m.
  induction pre as [|[n g] pre IH]; intros m; cbn.
  - rewrite Et. cbn [typed obind].
    destruct (add_targets rt validate_args format qc targets m)
      as [m1| |] eqn:E1; try discriminate.
    cbn [obind]. intros H.
    destruct (proj1 (add_targets_lookup _ _ _ _ _ E1) t Hin) as (d & Ed & Eg).
    exists d. split; [exact Ed|].
    now rewrite (add_groups_skip _ _ _ _ _ Hpost H).
  - destruct (as_dict g) as [qc0|]; [|discriminate].
    cbn [of_result obind].
    destruct (iterate (dict_get qc0 "targets")) as [ts|]; [|discriminate].
    cbn [typed obind].
    destruct (add_targets rt validate_args format qc0 ts m) as [m1| |];
      try discriminate.
    cbn [obind]. apply IH.
Qed.

(** When several groups list the same target, the last of them decides:
    the returned map binds the target to the dictionary built from the
    last group that lists it. *)
Theorem _quantization_scheme_map_last_group_wins
  (config : RawConfig) (t name : string) (qc : RawConfig)
  (targets : list Json) (pre post : list (string * Json))
  (m : list (string * SchemeDict)) :
  dict_get_default config "config_groups" (JDict [])
  = JDict (pre ++ (name, JDict qc) :: post) ->
  iterate (dict_get qc "targets") = Some targets ->
  In (JStr t) targets ->
  (forall n g, In (n, g) post -> group_skips t g) ->
  _quantization_scheme_map_from_config rt validate_args config = Done m ->
  exists d,
    scheme_dict_of rt validate_args (dict_get config "format") qc = Done d
    /\ getitem m t = Return d.
Proof.
  intros Eg Et Hin Hpost. unfold _quantization_scheme_map_from_config.
  rewrite Eg. cbn [as_dict of_result obind].
  now apply add_groups_last with (targets := targets).
Qed.

End QuantMapFacts.

(** *** [from_config] *)

Section FromConfigFacts.

Variable rt : Runtime.
Variable validate_args : Json -> result QuantizationArgs.
Variable validate_sparsity : Json -> result SparsityCompressionConfig.

Lemma from_config_Done (raw : RawConfig) (c : CompressedTensorsConfig) :
  from_config rt validate_args validate_sparsity raw = Done c ->
  _quantization_scheme_map_from_config rt validate_args raw
  = Done (target_scheme_map c)
  /\ _parse_sparsity_config validate_sparsity raw
     = Return (sparsity_scheme_map c, sparsity_ignore_list c)
  /\ dict_get raw "format" = JStr (quant_format c)
  /\ config c = Some raw
  /\ kv_cache_scheme c = None.
Proof.
  unfold from_config.
  destruct (_quantization_scheme_map_from_config rt validate_args raw)
    as [m| |]; try discriminate. cbn [obind].
  destruct (_parse_sparsity_config validate_sparsity raw) as [[sm si]|e];
    [|discriminate]. cbn [of_result obind].
  destruct (as_str_list _) as [ig|]; [|discriminate]. cbn [typed obind].
  destruct (dict_get raw "format") as [| | |fmt| |]; try discriminate.
  cbn [as_str typed obind].
  destruct (as_mapping _) as [pm|]; [|discriminate]. cbn [typed obind].
  intros [= <-]. cbn. auto.
Qed.

Lemma matched_quant_In (c : CompressedTensorsConfig) (layer : Layer)
  (layer_name : option string) (w i : option QuantizationArgs) :
  matched_quant rt c layer layer_name = Return (w, i) ->
  (target_scheme_map c = [] /\ w = None /\ i = None)
  \/ exists k d,
       In (k, d) (target_scheme_map c)
       /\ w = weights d /\ i = input_activations d.
Proof.
  unfold matched_quant.
  destruct (target_scheme_map c) as [|kv tl] eqn:E.
  - intros [= <- <-]. now left.
  - destruct (find_matched_target rt _ _ _ _) as [k|e]; [|discriminate].
    cbn [bind].
    destruct (getitem (kv :: tl) k) as [d|e] eqn:Eg; [|discriminate].
    cbn [bind]. intros [= <- <-]. right. exists k, d.
    split; [now apply getitem_In|auto].
Qed.

Lemma from_config_matched
  (config : RawConfig) (c : CompressedTensorsConfig)
  (layer : Layer) (layer_name : option string)
  (w i : option QuantizationArgs) :
  from_config rt validate_args validate_sparsity config = Done c ->
  matched_quant rt c layer layer_name = Return (w, i) ->
  (target_scheme_map c = [] /\ w = None /\ i = None)
  \/ exists wq,
       w = Some wq
       /\ (i <> None ->
           is_activation_quantization_format rt (quant_format c) = true)
       /\ (i = None ->
           is_activation_quantization_format rt (quant_format c) = true ->
           type wq = FLOAT).
Proof.
  intros Hc Hq.
  destruct (from_config_Done _ _ Hc) as (Hm & _ & Hf & _).
  apply matched_quant_In in Hq as [H|(k & d & Hin & -> & ->)]; [now left|].
  right.
  destruct (add_groups_entries _ _ _ _ Hm) as [_ Hall].
  destruct (Hall k d Hin) as (fmt & wq & Ef & Hw & Hi & Ht).
  rewrite Hf in Ef. injection Ef as <-.
  exists wq. auto.
Qed.

(** For a configuration built by [from_config], the quantization arguments
    [get_scheme] matches for a layer are both [None] only when the
    configuration lists no quantization target; otherwise the weight
    quantization is present, an input quantization is present only under
    an activation-quantizing format, and under such a format a target
    without input quantization has a float-typed weight. *)
Theorem from_config_matched_quant
  (config : RawConfig) (c : CompressedTensorsConfig)
  (layer : Layer) (layer_name : option string)
  (w i : option QuantizationArgs) :
  from_config rt validate_args validate_sparsity config = Done c ->
  matched_quant rt c layer layer_name = Return (w, i) ->
  (target_scheme_map c = [] /\ w = None /\ i = None)
  \/ exists wq,
       w = Some wq
       /\ (i <> None ->
           is_activation_quantization_format rt (quant_format c) = true)
       /\ (i = None ->
           is_activation_quantization_format rt (quant_format c) = true ->
           type wq = FLOAT).
Proof. apply from_config_matched. Qed.

(** For a configuration built by [from_config], [get_scheme] takes the
    unquantized fallback only when the configuration lists no quantization
    target at all. *)
Theorem from_config_fallback
  (config : RawConfig) (c : CompressedTensorsConfig)
  (layer : Layer) (layer_name : option string) (l : list LogCall) :
  from_config rt validate_args validate_sparsity config = Done c ->
  get_scheme rt c layer layer_name = (l, Return None) ->
  target_scheme_map c = [].
Proof.
  intros Hc Hg.
  apply get_scheme_cases in Hg
    as [(_ & _ & i & sp & Hq & _)|[(s & wq & i & sp & E & _)|(e & E & _)]];
    try discriminate E.
  destruct (from_config_matched _ _ _ _ _ _ Hc Hq)
    as [(E & _)|(wq & E & _)]; [exact E|discriminate].
Qed.

(** For a configuration built by [from_config], a matched pair that is
    eligible for FP8 w8a8 is classified on the device capability alone,
    on a device with a single-digit minor version: the format is an
    activation-quantizing one because the pair has an input
    quantization, so the pair gets the FP8 w8a8 scheme when the
    capability meets that scheme's minimum and, when it does not and
    vllm is importable, the FP8 w8a16 scheme. *)
Theorem from_config_fp8_w8a8
  (config : RawConfig) (c : CompressedTensorsConfig)
  (layer : Layer) (layer_name : option string)
  (w i : option QuantizationArgs) (cap : Z) :
  from_config rt validate_args validate_sparsity config = Done c ->
  matched_quant rt c layer layer_name = Return (w, i) ->
  _is_fp8_w8a8 w i = true ->
  to_int (device_capability rt) = Return cap ->
  exists wq iq,
    w = Some wq /\ i = Some iq
    /\ is_activation_quantization_format rt (quant_format c) = true
    /\ (get_min_capability rt cls_CompressedTensorsW8A8Fp8 <= cap ->
        _get_scheme_from_parts rt c w i
        = Return (CompressedTensorsW8A8Fp8 (strategy wq)
                    (Some (negb (dynamic iq)))))
    /\ (cap < get_min_capability rt cls_CompressedTensorsW8A8Fp8 ->
        VLLM_AVAILABLE rt = true ->
        _get_scheme_from_parts rt c w i
        = Return (CompressedTensorsW8A16Fp8 (strategy wq)
                    (Some (negb (dynamic iq))))).
Proof.
  intros Hc Hq H8 Hcap.
  destruct (proj1 (_is_fp8_w8a8_true_iff w i) H8) as (wq & iq & -> & -> & _).
  assert (Hact : is_activation_quantization_format rt (quant_format c) = true).
  { destruct (from_config_matched _ _ _ _ _ _ Hc Hq)
      as [(_ & E & _)|(wq' & _ & Hi & _)]; [discriminate|].
    apply Hi. discriminate. }
  exists wq, iq. repeat split; [exact Hact| |].
  - intros Hle.
    rewrite _get_scheme_from_parts_quantized_input.
    unfold activation_quantization_schemes.
    rewrite Hact, H8, global_class_W8A8Fp8. cbn [bind].
    rewrite (check_advisory _ _ _ Hcap). cbn [bind].
    destruct (Z.leb_spec (get_min_capability rt cls_CompressedTensorsW8A8Fp8) cap);
      [reflexivity|lia].
  - intros Hlt _.
    rewrite _get_scheme_from_parts_quantized_input.
    unfold activation_quantization_schemes.
    rewrite Hact, H8, global_class_W8A8Fp8. cbn [bind].
    rewrite (check_advisory _ _ _ Hcap). cbn [bind].
    destruct (Z.leb_spec (get_min_capability rt cls_CompressedTensorsW8A8Fp8) cap);
      [lia|reflexivity].
Qed.

Lemma In_fold_setitem_const {V : Type} (v : V) (l : list string)
  (d : list (string * V)) k v' :
  In (k, v') (fold_left (fun d t => setitem d t v) l d) ->
  v' = v \/ In (k, v') d.
Proof.
  revert d. induction l as [|a l IH]; intros d; cbn; [auto|].
  intros H. apply IH in H as [H|H]; [auto|].
  apply In_setitem in H as [[_ ->]|H]; auto.
Qed.

(** For a configuration built by [from_config], every layer that matches a
    sparsity target gets one and the same sparsity scheme: the validated
    [sparsity_config] entry of the raw configuration. *)
Theorem from_config_single_sparsity_scheme
  (config : RawConfig) (c : CompressedTensorsConfig)
  (layer : Layer) (layer_name : option string)
  (sp : SparsityCompressionConfig) :
  from_config rt validate_args validate_sparsity config = Done c ->
  matched_sparsity rt c layer layer_name = Return (Some sp) ->
  validate_sparsity (dict_get config SPARSITY_CONFIG_NAME) = Return sp.
Proof.
  intros Hc Hs.
  destruct (from_config_Done _ _ Hc) as (_ & Hp & _).
  unfold matched_sparsity in Hs.
  destruct (find_matched_target rt _ _ _ _) as [t|[]]; try discriminate.
  destruct (getitem (sparsity_scheme_map c) t) as [sp'|e] eqn:Eg;
    [|discriminate].
  cbn [bind] in Hs. injection Hs as ->.
  apply getitem_In in Eg.
  unfold _parse_sparsity_config in Hp.
  destruct (negb (truthy (dict_get config SPARSITY_CONFIG_NAME))).
  - injection Hp as Em _. rewrite <- Em in Eg. destruct Eg.
  - destruct (validate_sparsity (dict_get config SPARSITY_CONFIG_NAME))
      as [sc|e]; [|discriminate].
    cbn [bind] in Hp. injection Hp as Em _. rewrite <- Em in Eg.
    apply In_fold_setitem_const in Eg as [->|[]]. reflexivity.
Qed.

End FromConfigFacts.

Example from_config_example :
  from_config (Example.runtime true (8, 9)) ExampleParse.validate_args
    ExampleParse.validate_sparsity ExampleParse.raw_config
  = Done ExampleParse.parsed.
Proof. reflexivity. Qed.

Lemma _parse_sparsity_config_spec_witness :
  exists m,
    _parse_sparsity_config ExampleParse.validate_sparsity
      ExampleParse.raw_config
    = Return (m, ["lm_head"])
    /\ NoDup (keys m)
    /\ (forall t, In t (keys m) <-> In t ["Linear"; "Linear"])
    /\ (forall t,
          In t ["Linear"; "Linear"] ->
          getitem m t
          = Return {| format := "dense"; sparsity_structure := Some "2:4";
                      sparsity_targets := Some ["Linear"; "Linear"];
                      sparsity_ignore := Some ["lm_head"] |}).
Proof.
  apply (proj2 (proj2 (_parse_sparsity_config_spec
                         ExampleParse.validate_sparsity
                         ExampleParse.raw_config) eq_refl)
           {| format := "dense"; sparsity_structure := Some "2:4";
              sparsity_targets := Some ["Linear"; "Linear"];
              sparsity_ignore := Some ["lm_head"] |}).
  reflexivity.
Defined.


Lemma _quantization_scheme_map_last_group_wins_witness :
  exists d,
    scheme_dict_of (Example.runtime true (8, 9)) ExampleParse.validate_args
      (JStr "float-quantized")
      [ ("targets", JList [JStr "Linear"; JStr "Embedding"]);
        ("weights", ExampleParse.args 8 "float" "tensor" false);
        ("input_activations", ExampleParse.args 8 "float" "tensor" false) ]
    = Done d
    /\ getitem (target_scheme_map ExampleParse.parsed) "Linear" = Return d.
Proof.
  apply (_quantization_scheme_map_last_group_wins
           (Example.runtime true (8, 9)) ExampleParse.validate_args
           ExampleParse.raw_config "Linear" "group_1"
           [ ("targets", JList [JStr "Linear"; JStr "Embedding"]);
             ("weights", ExampleParse.args 8 "float" "tensor" false);
             ("input_activations",
              ExampleParse.args 8 "float" "tensor" false) ]
           [JStr "Linear"; JStr "Embedding"]
           [ ("group_0",
              JDict [ ("targets", JList [JStr "Linear"]);
                      ("weights", ExampleParse.args 8 "int" "tensor" false);
                      ("input_activations",
                       ExampleParse.args 8 "int" "token" true) ]) ]
           []).
  - reflexivity.
  - reflexivity.
  - now left.
  - intros n g [].
  - reflexivity.
Defined.

Lemma from_config_matched_quant_witness :
  (target_scheme_map ExampleParse.parsed = []
   /\ Some (Example.fp8_tensor false) = None
   /\ Some (Example.fp8_tensor false) = None)
  \/ exists wq,
       Some (Example.fp8_tensor false) = Some wq
       /\ (Some (Example.fp8_tensor false) <> None ->
           is_activation_quantization_format (Example.runtime true (8, 9))
             (quant_format ExampleParse.parsed) = true)
       /\ (Some (Example.fp8_tensor false) = None ->
           is_activation_quantization_format (Example.runtime true (8, 9))
             (quant_format ExampleParse.parsed) = true ->
           type wq = FLOAT).
Proof.
  apply (from_config_matched_quant (Example.runtime true (8, 9))
           ExampleParse.validate_args ExampleParse.validate_sparsity
           ExampleParse.raw_config ExampleParse.parsed
           Example.linear (Some "model.layers.0.mlp.down_proj"));
    reflexivity.
Defined.

Lemma from_config_fallback_witness :
  target_scheme_map
    {| ignore := []; quant_format := "dense"; target_scheme_map := [];
       kv_cache_scheme := None; sparsity_scheme_map := [];
       sparsity_ignore_list := [];
       config := Some [("format", JStr "dense")];
       packed_modules_mapping := [] |}
  = [].
Proof.
  apply (from_config_fallback (Example.runtime true (8, 9))
           ExampleParse.validate_args ExampleParse.validate_sparsity
           [("format", JStr "dense")] _
           Example.linear (Some "model.layers.0.mlp.down_proj")
           [warning_once Spec.fallback_warning]);
    reflexivity.
Defined.

Lemma from_config_fp8_w8a8_witness :
  exists wq iq,
    Some (Example.fp8_tensor false) = Some wq
    /\ Some (Example.fp8_tensor false) = Some iq
    /\ is_activation_quantization_format (Example.runtime true (8, 0))
         (quant_format ExampleParse.parsed) = true
    /\ (get_min_capability (Example.runtime true (8, 0))
          cls_CompressedTensorsW8A8Fp8 <= 80 ->
        _get_scheme_from_parts (Example.runtime true (8, 0))
          ExampleParse.parsed
          (Some (Example.fp8_tensor false)) (Some (Example.fp8_tensor false))
        = Return (CompressedTensorsW8A8Fp8 (strategy wq)
                    (Some (negb (dynamic iq)))))
    /\ (80 < get_min_capability (Example.runtime true (8, 0))
               cls_CompressedTensorsW8A8Fp8 ->
        VLLM_AVAILABLE (Example.runtime true (8, 0)) = true ->
        _get_scheme_from_parts (Example.runtime true (8, 0))
          ExampleParse.parsed
          (Some (Example.fp8_tensor false)) (Some (Example.fp8_tensor false))
        = Return (CompressedTensorsW8A16Fp8 (strategy wq)
                    (Some (negb (dynamic iq))))).
Proof.
  apply (from_config_fp8_w8a8 (Example.runtime true (8, 0))
           ExampleParse.validate_args ExampleParse.validate_sparsity
           ExampleParse.raw_config ExampleParse.parsed
           Example.linear (Some "model.layers.0.mlp.down_proj"));
    reflexivity.
Defined.

Lemma from_config_single_sparsity_scheme_witness :
  ExampleParse.validate_sparsity
    (dict_get ExampleParse.raw_config SPARSITY_CONFIG_NAME)
  = Return {| format := "dense"; sparsity_structure := Some "2:4";
              sparsity_targets := Some ["Linear"; "Linear"];
              sparsity_ignore := Some ["lm_head"] |}.
Proof.
  apply (from_config_single_sparsity_scheme (Example.runtime true (8, 9))
           ExampleParse.validate_args ExampleParse.validate_sparsity
           ExampleParse.raw_config ExampleParse.parsed
           Example.linear (Some "model.layers.0.mlp.down_proj"));
    reflexivity.
Defined.
